(** * Activity reports of rewinddb (src/rewinddb/core.py)

    Shallow embedding of [RewindDB.get_app_usage], [RewindDB.get_active_hours]
    and [RewindDB.get_meetings].

    Timestamps are tz-aware UTC [datetime] values; they are modelled as whole
    microseconds since the Unix epoch (a [Z]), the resolution of Python's
    [datetime].  A [timedelta] is a [Z] of microseconds too, so
    [td.total_seconds()] is that value divided by [10^6]; the
    [duration_seconds] field of a record is kept in the same microsecond unit.
    Values that the source passes through [round(x, 2)] are exact rationals
    ([Q]) rounded by [round2]; floating-point error is not modelled. *)

From Stdlib Require Import ZArith QArith String List Bool Sorting Lia.
Import ListNotations.
Open Scope string_scope.
Open Scope list_scope.
Open Scope Z_scope.

(** ** Time *)

Definition us_per_second : Z := 1000000.
Definition us_per_hour : Z := 3600 * us_per_second.
Definition us_per_day : Z := 86400 * us_per_second.

(** [dt.hour] of a UTC datetime. *)
Definition hour_of (t : Z) : Z := (t / us_per_hour) mod 24.

(** [dt.date()]: the day number since the epoch (its [isoformat()] is an
    order-preserving injective rendering of it). *)
Definition date_of (t : Z) : Z := t / us_per_day.

(** [(dt + timedelta(hours=1)).replace(minute=0, second=0, microsecond=0)] *)
Definition next_hour (t : Z) : Z := (t / us_per_hour + 1) * us_per_hour.

(** [(dt + timedelta(days=1)).replace(hour=0, minute=0, second=0, microsecond=0)] *)
Definition next_day (t : Z) : Z := (t / us_per_day + 1) * us_per_day.

(** [datetime.timedelta(days=days, hours=hours, minutes=minutes, seconds=seconds)] *)
Definition timedelta (days hours minutes seconds : Z) : Z :=
  ((days * 86400) + (hours * 3600) + (minutes * 60) + seconds) * us_per_second.

(** ** Dictionaries

    Python dicts keep insertion order, which decides the order of ties in the
    stable sorts below, so they are association lists; [dict_add k x d] is
    [if k not in d: d[k] = 0] followed by [d[k] += x]. *)

Section Dict.
Context {K V : Type} (eqb : K -> K -> bool).

Fixpoint dict_mem (k : K) (d : list (K * V)) : bool :=
  match d with
  | [] => false
  | (k', _) :: d' => if eqb k k' then true else dict_mem k d'
  end.

(** [if k not in d: d[k] = dflt], then [d[k] = f(d[k])]. *)
Fixpoint dict_upd (k : K) (dflt : V) (f : V -> V) (d : list (K * V))
  : list (K * V) :=
  match d with
  | [] => [(k, f dflt)]
  | (k', v) :: d' => if eqb k k' then (k', f v) :: d'
                     else (k', v) :: dict_upd k dflt f d'
  end.
End Dict.

Definition dict_add {K : Type} (eqb : K -> K -> bool) (k : K) (x : Z)
  (d : list (K * Z)) : list (K * Z) :=
  dict_upd eqb k 0 (Z.add x) d.

Definition sum_values {K : Type} (d : list (K * Z)) : Z :=
  fold_right (fun kv acc => snd kv + acc) 0 d.

(** The hour histogram [{h: 0 for h in range(24)}]: keys are exactly
    [0..23] in order, so it is the list of its 24 values. *)
Definition hours_init : list Z := repeat 0 24.

(** [hourly[h] += x] *)
Fixpoint hour_add (h : nat) (x : Z) (l : list Z) : list Z :=
  match l, h with
  | [], _ => []
  | v :: l', O => (v + x) :: l'
  | v :: l', S h' => v :: hour_add h' x l'
  end.

Definition hour_bump (h x : Z) (l : list Z) : list Z := hour_add (Z.to_nat h) x l.

(** ** Stable sorting ([sorted(..., key=...)], also with [reverse=True])

    [before x y] holds when [x] must be placed strictly before [y]; inserting
    each element after all those it need not precede keeps ties in input
    order, as Python's sort does. *)
Section Sort.
Context {A : Type} (before : A -> A -> bool).

Fixpoint ins (x : A) (l : list A) : list A :=
  match l with
  | [] => [x]
  | y :: l' => if before x y then x :: y :: l' else y :: ins x l'
  end.

Definition stable_sort (l : list A) : list A :=
  fold_left (fun acc x => ins x acc) l [].
End Sort.

(** ** Rounding: [round(x, 2)] (round half to even) on exact rationals *)

Definition round_half_even (n d : Z) : Z :=
  let q := n / d in
  let r := n mod d in
  match Z.compare (2 * r) d with
  | Lt => q
  | Gt => q + 1
  | Eq => if Z.even q then q else q + 1
  end.

Definition round2 (x : Q) : Q :=
  Qmake (round_half_even (Qnum x * 100) (Zpos (Qden x))) 100.

(** [round(us_value / 1e6 / 3600, 2)]: a duration shown in hours. *)
Definition hours_of_us (us : Z) : Q := round2 (inject_Z us / inject_Z us_per_hour).

(** ** Bucket walks (one interval)

    Each walk returns the [(key, amount)] increments the source performs, in
    order.  The [while] loops are run with a fuel that covers every iteration
    the loop can make (see [hour_fuel] and [day_fuel]). *)

(** The hour walk of [get_active_hours] and [get_meetings] (identical code):
<<
    while current_time < end_time_seg:
        current_hour = current_time.hour
        next_hour = (current_time + timedelta(hours=1)).replace(...)
        if next_hour > end_time_seg: hour_duration = end_time_seg - current_time
        else: hour_duration = next_hour - current_time
        hourly_activity[current_hour] += hour_duration
        current_time = next_hour
>> *)
Fixpoint hour_walk (fuel : nat) (cur e : Z) : list (Z * Z) :=
  match fuel with
  | O => []
  | S f =>
      if cur <? e then
        let nh := next_hour cur in
        let dur := if nh >? e then e - cur else nh - cur in
        (hour_of cur, dur) :: hour_walk f nh e
      else []
  end.

(** The hour walk of [get_app_usage]: the hour key is a counter started at
    [start_hour] and advanced by [(current_hour + 1) % 24]. *)
Fixpoint app_hour_walk (fuel : nat) (cur_hour cur e : Z) : list (Z * Z) :=
  match fuel with
  | O => []
  | S f =>
      if cur <? e then
        let nh := next_hour cur in
        let dur := if nh >? e then e - cur else nh - cur in
        (cur_hour, dur) :: app_hour_walk f ((cur_hour + 1) mod 24) nh e
      else []
  end.

Definition hour_fuel (s e : Z) : nat :=
  Z.to_nat (e / us_per_hour - s / us_per_hour + 1).

(** The day walk of [get_active_hours] and [get_meetings] (identical code),
    taken when [start_date != end_date]:
<<
    while current_date < end_date:
        next_day = (current_time + timedelta(days=1)).replace(hour=0, ...)
        daily[current_date.isoformat()] += next_day - current_time
        current_date = next_day.date(); current_time = next_day
    daily[current_date.isoformat()] += end_time_seg - current_time
>> *)
Fixpoint day_walk (fuel : nat) (cur_date cur end_date e : Z) : list (Z * Z) :=
  match fuel with
  | O => [(cur_date, e - cur)]
  | S f =>
      if cur_date <? end_date then
        let nd := next_day cur in
        (cur_date, nd - cur) :: day_walk f (date_of nd) nd end_date e
      else [(cur_date, e - cur)]
  end.

Definition day_fuel (s e : Z) : nat := Z.to_nat (date_of e - date_of s).

(** ** Per-interval credits

    [if start_hour == end_hour: hourly[start_hour] += duration] else the walk;
    [if start_date == end_date: daily[date_str] += duration] else the walk. *)
Definition hour_credits (s e duration : Z) : list (Z * Z) :=
  if hour_of s =? hour_of e then [(hour_of s, duration)]
  else hour_walk (hour_fuel s e) s e.

Definition app_hour_credits (s e duration : Z) : list (Z * Z) :=
  if hour_of s =? hour_of e then [(hour_of s, duration)]
  else app_hour_walk (hour_fuel s e) (hour_of s) s e.

Definition day_credits (s e duration : Z) : list (Z * Z) :=
  let start_date := date_of s in
  let end_date := date_of e in
  if start_date =? end_date then [(start_date, duration)]
  else day_walk (day_fuel s e) start_date s end_date e.

Definition apply_hours (cr : list (Z * Z)) (hourly : list Z) : list Z :=
  fold_left (fun h kv => hour_bump (fst kv) (snd kv) h) cr hourly.

Definition apply_days (cr : list (Z * Z)) (daily : list (Z * Z)) : list (Z * Z) :=
  fold_left (fun d kv => dict_add Z.eqb (fst kv) (snd kv) d) cr daily.

(** ** Records returned by the query layer *)

(** A row of [get_segments]. *)
Record segment := mk_segment {
  start_time : Z;
  end_time : Z;
  application : option string;
  window : option string;
  browser_url : option string;
  duration_seconds : Z
}.

(** A row of [get_events]. *)
Record event := mk_event {
  title : option string;
  ev_start_time : Z;
  ev_end_time : Z;
  calendar : option string;
  ev_duration_seconds : Z
}.

(** Python truthiness of an optional string: [None] and [""] are false. *)
Definition truthy (o : option string) : option string :=
  match o with
  | Some s => if String.eqb s "" then None else Some s
  | None => None
  end.

Definition opt_string_eqb (a b : option string) : bool :=
  match a, b with
  | Some x, Some y => String.eqb x y
  | None, None => true
  | _, _ => false
  end.

(** An entry of [hourly_activity] / [daily_activity] /
    [daily_meeting_hours] / [hourly_distribution]:
    [{'hour' or 'date': key, 'seconds': seconds, 'hours': round(seconds / 3600, 2)}] *)
Record bucket := mk_bucket { key : Z; seconds : Z; hours : Q }.

Definition mk_bucket_of (kv : Z * Z) : bucket :=
  mk_bucket (fst kv) (snd kv) (hours_of_us (snd kv)).

Definition hourly_items (hourly : list Z) : list (Z * Z) :=
  combine (map Z.of_nat (seq 0 24)) hourly.

Definition sorted_items (d : list (Z * Z)) : list (Z * Z) :=
  stable_sort (fun x y => fst x <? fst y) d.

Definition gap_threshold : Z := 60.

(** ** [get_active_hours] *)
Module ActiveHours.

(** [{'start', 'end', 'duration_seconds'}] of [active_periods] *)
Record period := mk_period { p_start : Z; p_end : Z; p_duration_seconds : Z }.

Definition close_period (a b : Z) : period := mk_period a b (b - a).

Record state := mk_state {
  hourly_activity : list Z;
  daily_activity : list (Z * Z);
  active_periods : list period;
  current_period : option (Z * Z)   (* (current_period_start, current_period_end) *)
}.

Definition init : state := mk_state hours_init [] [] None.

(** One iteration of [for segment in sorted_segments]. *)
Definition step (st : state) (seg : segment) : state :=
  let duration := duration_seconds seg in
  if duration <=? 0 then st
  else
    let s := start_time seg in
    let e := end_time seg in
    let h := apply_hours (hour_credits s e duration) (hourly_activity st) in
    let d := apply_days (day_credits s e duration) (daily_activity st) in
    match current_period st with
    | None => mk_state h d (active_periods st) (Some (s, e))
    | Some (a, b) =>
        if s - b <=? gap_threshold * us_per_second
        then mk_state h d (active_periods st) (Some (a, Z.max b e))
        else mk_state h d (active_periods st ++ [close_period a b]) (Some (s, e))
    end.

Definition sort_segments (segs : list segment) : list segment :=
  stable_sort (fun x y => start_time x <? start_time y) segs.

(** The loop and the final [if current_period_start is not None: append]. *)
Definition periods_of (segs : list segment) : list period :=
  let st := fold_left step (sort_segments segs) init in
  match current_period st with
  | Some (a, b) => active_periods st ++ [close_period a b]
  | None => active_periods st
  end.

Record report := mk_report {
  r_hourly_activity : list bucket;
  r_daily_activity : list bucket;
  r_active_periods : list period;
  total_active_seconds : Z;
  total_active_hours : Q;
  avg_session_seconds : Q;
  avg_session_minutes : Q;
  session_count : nat;
  time_range : Z * Z
}.

Definition report_of (segs : list segment) (start_time end_time : Z) : report :=
  let st := fold_left step (sort_segments segs) init in
  let periods := periods_of segs in
  let total := fold_right (fun p acc => p_duration_seconds p + acc) 0 periods in
  let avg : Q := match periods with
                 | [] => 0%Q
                 | _ => (inject_Z total / inject_Z (Z.of_nat (List.length periods))
                         / inject_Z us_per_second)%Q
                 end in
  mk_report
    (map mk_bucket_of (hourly_items (hourly_activity st)))
    (map mk_bucket_of (sorted_items (daily_activity st)))
    periods total (hours_of_us total)
    (round2 avg) (round2 (avg / inject_Z 60)%Q)
    (List.length periods) (start_time, end_time).

(** [get_active_hours(start_time, end_time, days, hours, minutes, seconds)];
    [get_segments] is the query layer and [now] the value of
    [datetime.now(timezone.utc)]. *)
Definition get_active_hours (get_segments : Z -> Z -> list segment) (now : Z)
  (start_time end_time : option Z) (days hours minutes seconds : Z) : report :=
  match start_time, end_time with
  | Some st, Some et => report_of (get_segments st et) st et
  | _, _ =>
      let st := now - timedelta days hours minutes seconds in
      report_of (get_segments st now) st now
  end.

End ActiveHours.

(** ** [get_app_usage] *)
Module AppUsage.

(** [app_usage[app] = {'total_seconds', 'window_count', 'windows'}] *)
Record app_data := mk_app_data {
  total_seconds : Z;
  window_count : Z;
  windows : list (string * Z)
}.

Definition app_data0 : app_data := mk_app_data 0 0 [].

Record state := mk_state {
  app_usage : list (option string * app_data);
  browser_usage : list (string * Z);
  window_usage : list (string * Z);
  hourly_activity : list Z;
  end_time_var : option Z   (* the local [end_time], reassigned in the loop *)
}.

Definition init (end_time : option Z) : state := mk_state [] [] [] hours_init end_time.

(** [app_usage[app]['total_seconds'] += duration] and, [if window:], the
    window bookkeeping of that app. *)
Definition update_app (w : option string) (duration : Z) (d : app_data) : app_data :=
  let total := total_seconds d + duration in
  match truthy w with
  | Some wn =>
      let fresh := negb (dict_mem String.eqb wn (windows d)) in
      mk_app_data total
        (if fresh then window_count d + 1 else window_count d)
        (dict_add String.eqb wn duration (windows d))
  | None => mk_app_data total (window_count d) (windows d)
  end.

(** One iteration of [for segment in segments]. *)
Definition step (st : state) (seg : segment) : state :=
  let duration := duration_seconds seg in
  if duration <=? 0 then st
  else
    let s := start_time seg in
    let e := end_time seg in
    let au := dict_upd opt_string_eqb (application seg) app_data0
                (update_app (window seg) duration) (app_usage st) in
    let wu := match truthy (window seg) with
              | Some wn => dict_add String.eqb wn duration (window_usage st)
              | None => window_usage st
              end in
    let bu := match truthy (browser_url seg) with
              | Some url => dict_add String.eqb url duration (browser_usage st)
              | None => browser_usage st
              end in
    let h := apply_hours (app_hour_credits s e duration) (hourly_activity st) in
    let et := if hour_of s =? hour_of e then end_time_var st else Some e in
    mk_state au bu wu h et.

Record window_entry := mk_window_entry { w_name : string; w_hours : Q; w_percentage : Q }.
Record app_entry := mk_app_entry {
  name : option string;
  hours : Q;
  percentage : Q;
  a_window_count : Z;
  top_windows : list window_entry
}.
Record url_entry := mk_url_entry { url : string; u_hours : Q; u_percentage : Q }.
Record hour_entry := mk_hour_entry { hour : Z; h_hours : Q; h_percentage : Q }.

Record report := mk_report {
  top_apps : list app_entry;
  top_urls : list url_entry;
  r_hourly_activity : list hour_entry;
  total_apps : nat;
  total_windows : nat;
  total_urls : nat;
  total_hours : Q;
  time_range : Z * Z
}.

(** [round((part / whole) * 100, 2)] *)
Definition pct (part whole : Z) : Q := round2 (inject_Z part / inject_Z whole * 100)%Q.

Definition sort_desc {A : Type} (val : A -> Z) (l : list A) : list A :=
  stable_sort (fun x y => val y <? val x) l.

Definition fmt_window (app_total : Z) (wd : string * Z) : window_entry :=
  mk_window_entry (fst wd) (hours_of_us (snd wd))
    (if app_total >? 0 then pct (snd wd) app_total else 0%Q).

Definition fmt_app (total_duration : Z) (ad : option string * app_data) : app_entry :=
  let d := snd ad in
  mk_app_entry (fst ad) (hours_of_us (total_seconds d))
    (pct (total_seconds d) total_duration) (window_count d)
    (map (fmt_window (total_seconds d)) (firstn 5 (sort_desc snd (windows d)))).

(** [sum(data['total_seconds'] for _, data in sorted_apps) if sorted_apps else 1]
    (the sentinel is one second). *)
Definition total_duration_of (sorted_apps : list (option string * app_data)) : Z :=
  match sorted_apps with
  | [] => us_per_second
  | _ => fold_right (fun ad acc => total_seconds (snd ad) + acc) 0 sorted_apps
  end.

Definition report_of (segs : list segment) (start_time : Z) (end_time : option Z)
  (now : Z) : report :=
  let st := fold_left step segs (init end_time) in
  let sorted_apps := sort_desc (fun ad => total_seconds (snd ad)) (app_usage st) in
  let total_duration := total_duration_of sorted_apps in
  mk_report
    (map (fmt_app total_duration) (firstn 10 sorted_apps))
    (map (fun ud => mk_url_entry (fst ud) (hours_of_us (snd ud))
                                 (pct (snd ud) total_duration))
         (firstn 10 (sort_desc snd (browser_usage st))))
    (map (fun hs => mk_hour_entry (fst hs) (hours_of_us (snd hs))
                      (if total_duration >? 0 then pct (snd hs) total_duration else 0%Q))
         (hourly_items (hourly_activity st)))
    (List.length (app_usage st)) (List.length (window_usage st))
    (List.length (browser_usage st))
    (hours_of_us total_duration)
    (start_time, match end_time_var st with Some t => t | None => now end).

(** [get_app_usage(...)]; [now] is the [datetime.now()] of the relative
    branch and [now_at_return] the one evaluated in [time_range]. *)
Definition get_app_usage (get_segments : Z -> Z -> list segment) (now now_at_return : Z)
  (start_time end_time : option Z) (days hours minutes seconds : Z) : report :=
  match start_time, end_time with
  | Some st, Some et => report_of (get_segments st et) st end_time now_at_return
  | _, _ =>
      let st := now - timedelta days hours minutes seconds in
      report_of (get_segments st now) st end_time now_at_return
  end.

End AppUsage.

(** ** [get_meetings] *)
Module Meetings.

(** [calendar_stats[calendar] = {'event_count', 'total_seconds', 'events'}] *)
Record cal_data := mk_cal_data {
  event_count : Z;
  total_seconds : Z;
  cal_events : list event
}.

Record state := mk_state {
  calendar_stats : list (string * cal_data);
  daily_meeting_hours : list (Z * Z);
  hourly_distribution : list Z;
  total_duration : Z
}.

Definition init : state := mk_state [] [] hours_init 0.

(** [event['calendar'] or 'Unknown'] *)
Definition calendar_name (ev : event) : string :=
  match truthy (calendar ev) with Some c => c | None => "Unknown" end.

(** One iteration of [for event in events]. *)
Definition step (st : state) (ev : event) : state :=
  let duration := ev_duration_seconds ev in
  let cal := calendar_name ev in
  if duration <=? 0 then st
  else
    let s := ev_start_time ev in
    let e := ev_end_time ev in
    let cs := dict_upd String.eqb cal (mk_cal_data 0 0 [])
                (fun d => mk_cal_data (event_count d + 1) (total_seconds d + duration)
                                      (cal_events d ++ [ev]))
                (calendar_stats st) in
    let d := apply_days (day_credits s e duration) (daily_meeting_hours st) in
    let h := apply_hours (hour_credits s e duration) (hourly_distribution st) in
    mk_state cs d h (total_duration st + duration).

Record cal_entry := mk_cal_entry {
  c_calendar : string;
  c_event_count : Z;
  c_hours : Q;
  c_percentage : Q
}.

Record report := mk_report {
  events : list event;
  r_calendar_stats : list cal_entry;
  r_daily_meeting_hours : list bucket;
  r_hourly_distribution : list bucket;
  total_events : nat;
  r_total_seconds : Z;
  total_hours : Q;
  avg_meeting_seconds : Q;
  avg_meeting_minutes : Q;
  time_range : Z * Z
}.

Definition fmt_cal (total : Z) (cd : string * cal_data) : cal_entry :=
  let d := snd cd in
  mk_cal_entry (fst cd) (event_count d) (hours_of_us (total_seconds d))
    (if total >? 0 then round2 (inject_Z (total_seconds d) / inject_Z total * 100)%Q
     else 0%Q).

Definition report_of (evs : list event) (start_time end_time : Z) : report :=
  let st := fold_left step evs init in
  let total := total_duration st in
  let cal_list := stable_sort (fun x y => negb (Qle_bool (c_hours x) (c_hours y)))
                    (map (fmt_cal total) (calendar_stats st)) in
  let avg : Q := match evs with
                 | [] => 0%Q
                 | _ => (inject_Z total / inject_Z (Z.of_nat (List.length evs))
                         / inject_Z us_per_second)%Q
                 end in
  mk_report evs cal_list
    (map mk_bucket_of (sorted_items (daily_meeting_hours st)))
    (map mk_bucket_of (hourly_items (hourly_distribution st)))
    (List.length evs) total (hours_of_us total)
    (round2 avg) (round2 (avg / inject_Z 60)%Q) (start_time, end_time).

Definition get_meetings (get_events : Z -> Z -> list event) (now : Z)
  (start_time end_time : option Z) (days hours minutes seconds : Z) : report :=
  match start_time, end_time with
  | Some st, Some et => report_of (get_events st et) st et
  | _, _ =>
      let st := now - timedelta days hours minutes seconds in
      report_of (get_events st now) st now
  end.

End Meetings.

(** * Properties *)

(** ** Dictionaries and histograms *)

Definition sum_list (l : list Z) : Z := fold_right Z.add 0 l.

Definition credit_total (cr : list (Z * Z)) : Z := sum_list (map snd cr).

(** [daily.get(k, 0)] *)
Fixpoint dict_get (k : Z) (d : list (Z * Z)) : Z :=
  match d with
  | [] => 0
  | (k', v) :: d' => if k =? k' then v else dict_get k d'
  end.

(** The amount an interval's credits give to one key. *)
Definition credit_at (k : Z) (cr : list (Z * Z)) : Z :=
  sum_list (map (fun kv => if k =? fst kv then snd kv else 0) cr).

Lemma hour_add_length : forall h x l, length (hour_add h x l) = length l.
Proof. induction h; intros x [|v l]; simpl; auto. Qed.

Lemma hour_add_sum : forall h x l,
  (h < length l)%nat -> sum_list (hour_add h x l) = sum_list l + x.
Proof.
  induction h; intros x [|v l] Hlt; simpl in *; try lia.
  rewrite IHh by lia. lia.
Qed.

Lemma apply_hours_sum : forall cr l,
  Forall (fun kv => 0 <= fst kv < 24) cr -> length l = 24%nat ->
  sum_list (apply_hours cr l) = sum_list l + credit_total cr /\
  length (apply_hours cr l) = 24%nat.
Proof.
  unfold apply_hours, credit_total.
  induction cr as [|[h x] cr IH]; intros l Hk Hl; simpl.
  - split; [lia | exact Hl].
  - inversion Hk as [|? ? Hh Hk']; subst; simpl in Hh.
    destruct (IH (hour_bump h x l) Hk') as [Hs Hlen].
    + unfold hour_bump; rewrite hour_add_length; exact Hl.
    + rewrite Hs. unfold hour_bump at 1. rewrite hour_add_sum by lia.
      split; [lia | exact Hlen].
Qed.

Section DictSum.
Context {K V : Type} (eqb : K -> K -> bool) (m : V -> Z).

Lemma dict_upd_sum : forall k dflt f x d,
  m dflt = 0 -> (forall v, m (f v) = m v + x) ->
  fold_right (fun kv acc => m (snd kv) + acc) 0 (dict_upd eqb k dflt f d)
  = fold_right (fun kv acc => m (snd kv) + acc) 0 d + x.
Proof.
  intros k dflt f x d H0 Hf.
  induction d as [|[k' v] d IH]; simpl.
  - rewrite Hf, H0. lia.
  - destruct (eqb k k'); simpl; [rewrite Hf | rewrite IH]; lia.
Qed.
End DictSum.

Lemma dict_add_sum : forall {K} (eqb : K -> K -> bool) k x d,
  sum_values (dict_add eqb k x d) = sum_values d + x.
Proof.
  intros K eqb k x d. unfold sum_values, dict_add.
  apply (dict_upd_sum eqb (fun v => v)); intros; simpl; lia.
Qed.

Lemma apply_days_sum : forall cr d,
  sum_values (apply_days cr d) = sum_values d + credit_total cr.
Proof.
  unfold apply_days, credit_total.
  induction cr as [|[k x] cr IH]; intros d; simpl.
  - lia.
  - rewrite IH, dict_add_sum. lia.
Qed.

Lemma dict_add_get : forall k k' x d,
  dict_get k (dict_add Z.eqb k' x d) = dict_get k d + (if k =? k' then x else 0).
Proof.
  intros k k' x d. unfold dict_add.
  induction d as [|[k0 v] d IH]; simpl.
  - destruct (k =? k'); lia.
  - destruct (Z.eqb_spec k' k0) as [->|Hne]; simpl.
    + destruct (k =? k0); lia.
    + destruct (Z.eqb_spec k k0) as [->|Hne']; simpl.
      * rewrite (proj2 (Z.eqb_neq k0 k')) by congruence. lia.
      * exact IH.
Qed.

Lemma apply_days_get : forall cr d k,
  dict_get k (apply_days cr d) = dict_get k d + credit_at k cr.
Proof.
  unfold apply_days, credit_at.
  induction cr as [|[k' x] cr IH]; intros d k; simpl.
  - lia.
  - rewrite IH, dict_add_get. lia.
Qed.

(** ** The hour walk *)

Lemma div_hour_bounds : forall t,
  us_per_hour * (t / us_per_hour) <= t < us_per_hour * (t / us_per_hour) + us_per_hour.
Proof.
  intro t. pose proof (Z.div_mod t us_per_hour ltac:(unfold us_per_hour, us_per_second; lia)).
  pose proof (Z.mod_pos_bound t us_per_hour ltac:(unfold us_per_hour, us_per_second; lia)).
  lia.
Qed.

Lemma div_day_bounds : forall t,
  us_per_day * (t / us_per_day) <= t < us_per_day * (t / us_per_day) + us_per_day.
Proof.
  intro t. pose proof (Z.div_mod t us_per_day ltac:(unfold us_per_day, us_per_second; lia)).
  pose proof (Z.mod_pos_bound t us_per_day ltac:(unfold us_per_day, us_per_second; lia)).
  lia.
Qed.

Lemma next_hour_div : forall t, next_hour t / us_per_hour = t / us_per_hour + 1.
Proof.
  intro t. unfold next_hour. apply Z.div_mul. unfold us_per_hour, us_per_second; lia.
Qed.

Lemma next_day_div : forall t, date_of (next_day t) = date_of t + 1.
Proof.
  intro t. unfold date_of, next_day. apply Z.div_mul. unfold us_per_day, us_per_second; lia.
Qed.

Lemma hour_of_range : forall t, 0 <= hour_of t < 24.
Proof. intro t. unfold hour_of. apply Z.mod_pos_bound. lia. Qed.

Lemma hour_of_next_hour : forall t, hour_of (next_hour t) = (hour_of t + 1) mod 24.
Proof.
  intro t. unfold hour_of. rewrite next_hour_div.
  rewrite Zplus_mod_idemp_l. reflexivity.
Qed.

Lemma hour_walk_keys : forall fuel cur e,
  Forall (fun kv => 0 <= fst kv < 24) (hour_walk fuel cur e).
Proof.
  induction fuel; intros cur e; simpl; [constructor|].
  destruct (cur <? e); constructor; simpl; auto using hour_of_range.
Qed.

Lemma app_hour_walk_eq : forall fuel cur e,
  app_hour_walk fuel (hour_of cur) cur e = hour_walk fuel cur e.
Proof.
  induction fuel; intros cur e; simpl; [reflexivity|].
  destruct (cur <? e); [|reflexivity].
  rewrite <- hour_of_next_hour, IHfuel. reflexivity.
Qed.

Lemma hour_walk_total : forall fuel cur e,
  cur < e -> e <= (cur / us_per_hour + Z.of_nat fuel) * us_per_hour ->
  credit_total (hour_walk fuel cur e) = e - cur.
Proof.
  unfold credit_total.
  induction fuel; intros cur e Hlt Hle; pose proof (div_hour_bounds cur) as Hb.
  - simpl in Hle. lia.
  - cbn [hour_walk]. rewrite (proj2 (Z.ltb_lt cur e) Hlt).
    pose proof (next_hour_div cur) as Hn.
    assert (Hnh : next_hour cur = (cur / us_per_hour + 1) * us_per_hour) by reflexivity.
    destruct (Z.gtb_spec (next_hour cur) e) as [Hgt|Hle'].
    + destruct fuel; cbn [hour_walk map snd sum_list fold_right];
        [lia | rewrite (proj2 (Z.ltb_ge (next_hour cur) e)) by lia;
               cbn [map fold_right]; lia].
    + destruct (Z.eq_dec (next_hour cur) e) as [Heq|Hne].
      * destruct fuel; cbn [hour_walk map snd sum_list fold_right];
          [lia | rewrite (proj2 (Z.ltb_ge (next_hour cur) e)) by lia;
                 cbn [map fold_right]; lia].
      * cbn [map snd sum_list fold_right]. fold (sum_list (map snd (hour_walk fuel (next_hour cur) e))).
        rewrite IHfuel; [lia | lia |].
        rewrite Hn. rewrite Nat2Z.inj_succ in Hle. lia.
Qed.

Lemma hour_fuel_enough : forall s e, s < e ->
  e <= (s / us_per_hour + Z.of_nat (hour_fuel s e)) * us_per_hour.
Proof.
  intros s e Hlt. unfold hour_fuel.
  assert (s / us_per_hour <= e / us_per_hour)
    by (apply Z.div_le_mono; [unfold us_per_hour, us_per_second|]; lia).
  rewrite Z2Nat.id by lia. pose proof (div_hour_bounds e). lia.
Qed.

(** ** The day walk *)

(** The time [[s, e)] spends on day number [d]. *)
Definition day_overlap (s e d : Z) : Z :=
  Z.max 0 (Z.min e ((d + 1) * us_per_day) - Z.max s (d * us_per_day)).

Lemma day_overlap_same_day : forall s e d,
  s <= e -> date_of s = date_of e ->
  day_overlap s e d = if d =? date_of s then e - s else 0.
Proof.
  intros s e d Hle Hd. unfold day_overlap, date_of in *.
  pose proof (div_day_bounds s). pose proof (div_day_bounds e).
  destruct (Z.eqb_spec d (s / us_per_day)) as [->|Hne].
  - unfold us_per_day, us_per_second in *; lia.
  - assert (d < s / us_per_day \/ s / us_per_day < d) as [Hl|Hg] by lia;
      unfold us_per_day, us_per_second in *; nia.
Qed.

Lemma day_walk_at : forall fuel cur e d,
  cur <= e -> Z.of_nat fuel = date_of e - date_of cur ->
  credit_at d (day_walk fuel (date_of cur) cur (date_of e) e) = day_overlap cur e d.
Proof.
  unfold credit_at.
  induction fuel; intros cur e d Hle Hf.
  - simpl. rewrite day_overlap_same_day by (simpl in Hf; lia).
    destruct (d =? date_of cur); lia.
  - cbn [day_walk]. rewrite (proj2 (Z.ltb_lt (date_of cur) (date_of e))) by lia.
    cbn [map sum_list fold_right fst snd].
    fold (sum_list (map (fun kv : Z * Z => if d =? fst kv then snd kv else 0)
                     (day_walk fuel (date_of (next_day cur)) (next_day cur) (date_of e) e))).
    pose proof (next_day_div cur) as Hn.
    assert (Hnd : next_day cur = (date_of cur + 1) * us_per_day) by reflexivity.
    pose proof (div_day_bounds cur). pose proof (div_day_bounds e).
    unfold date_of in *.
    assert (Hle' : next_day cur <= e) by (unfold us_per_day, us_per_second in *; nia).
    rewrite IHfuel by (unfold date_of; lia).
    unfold day_overlap.
    destruct (Z.eqb_spec d (cur / us_per_day)) as [->|Hne].
    + unfold us_per_day, us_per_second in *; lia.
    + assert (d < cur / us_per_day \/ cur / us_per_day < d) as [Hl|Hg] by lia;
        unfold us_per_day, us_per_second in *; nia.
Qed.

Lemma day_walk_total : forall fuel cur e,
  cur <= e -> Z.of_nat fuel = date_of e - date_of cur ->
  credit_total (day_walk fuel (date_of cur) cur (date_of e) e) = e - cur.
Proof.
  unfold credit_total.
  induction fuel; intros cur e Hle Hf.
  - simpl. lia.
  - cbn [day_walk]. rewrite (proj2 (Z.ltb_lt (date_of cur) (date_of e))) by lia.
    cbn [map sum_list fold_right fst snd].
    fold (sum_list (map snd (day_walk fuel (date_of (next_day cur)) (next_day cur) (date_of e) e))).
    pose proof (next_day_div cur) as Hn.
    assert (Hnd : next_day cur = (date_of cur + 1) * us_per_day) by reflexivity.
    pose proof (div_day_bounds cur). pose proof (div_day_bounds e).
    unfold date_of in *.
    assert (Hle' : next_day cur <= e) by (unfold us_per_day, us_per_second in *; nia).
    rewrite IHfuel by (unfold date_of; lia). lia.
Qed.

Lemma date_of_mono : forall s e, s <= e -> date_of s <= date_of e.
Proof. intros. unfold date_of. apply Z.div_le_mono; [unfold us_per_day, us_per_second|]; lia. Qed.

Lemma day_credits_total : forall s e,
  s < e -> credit_total (day_credits s e (e - s)) = e - s.
Proof.
  intros s e Hlt. unfold day_credits.
  destruct (Z.eqb_spec (date_of s) (date_of e)).
  - unfold credit_total; simpl; lia.
  - apply day_walk_total; [lia|]. unfold day_fuel.
    pose proof (date_of_mono s e). rewrite Z2Nat.id; lia.
Qed.

Lemma day_credits_at : forall s e d,
  s < e -> credit_at d (day_credits s e (e - s)) = day_overlap s e d.
Proof.
  intros s e d Hlt. unfold day_credits.
  destruct (Z.eqb_spec (date_of s) (date_of e)) as [Heq|Hne].
  - rewrite day_overlap_same_day by lia. unfold credit_at; simpl.
    destruct (d =? date_of s); lia.
  - apply day_walk_at; [lia|]. unfold day_fuel.
    pose proof (date_of_mono s e). rewrite Z2Nat.id; lia.
Qed.

Lemma hour_credits_total : forall s e,
  s < e -> credit_total (hour_credits s e (e - s)) = e - s.
Proof.
  intros s e Hlt. unfold hour_credits.
  destruct (hour_of s =? hour_of e).
  - unfold credit_total; simpl; lia.
  - apply hour_walk_total; [exact Hlt | apply hour_fuel_enough; exact Hlt].
Qed.

Lemma hour_credits_keys : forall s e x,
  Forall (fun kv => 0 <= fst kv < 24) (hour_credits s e x).
Proof.
  intros s e x. unfold hour_credits. destruct (hour_of s =? hour_of e).
  - repeat constructor; apply hour_of_range.
  - apply hour_walk_keys.
Qed.

Lemma app_hour_credits_eq : forall s e x,
  app_hour_credits s e x = hour_credits s e x.
Proof.
  intros s e x. unfold app_hour_credits, hour_credits.
  rewrite app_hour_walk_eq. reflexivity.
Qed.

Lemma credit_hours_conserve : forall s e h,
  s < e -> length h = 24%nat ->
  sum_list (apply_hours (hour_credits s e (e - s)) h) = sum_list h + (e - s) /\
  length (apply_hours (hour_credits s e (e - s)) h) = 24%nat.
Proof.
  intros s e h Hlt Hl.
  destruct (apply_hours_sum (hour_credits s e (e - s)) h (hour_credits_keys s e _) Hl)
    as [Hs Hlen].
  rewrite Hs, hour_credits_total by exact Hlt. auto.
Qed.

Lemma credit_days_conserve : forall s e d,
  s < e -> sum_values (apply_days (day_credits s e (e - s)) d) = sum_values d + (e - s).
Proof. intros. rewrite apply_days_sum, day_credits_total; auto. Qed.

Ltac positive_duration Hd :=
  rewrite Hd; rewrite (proj2 (Z.leb_gt _ _)) by lia.

(** ** C1: conservation of credited seconds *)

(** C1: for every interval with [start < end] and [duration_seconds = end - start],
    one pass of the segment loop of [get_active_hours] raises the sum of the 24
    hour buckets and the sum of the day buckets by exactly [end - start]; so does
    the segment loop of [get_app_usage] for its hour buckets, and the event loop
    of [get_meetings] for its hour and day buckets. *)
Theorem credited_seconds_conserved :
  forall (seg : segment) (ev : event) (st : ActiveHours.state) (sa : AppUsage.state)
         (sm : Meetings.state),
  start_time seg < end_time seg ->
  duration_seconds seg = end_time seg - start_time seg ->
  ev_start_time ev < ev_end_time ev ->
  ev_duration_seconds ev = ev_end_time ev - ev_start_time ev ->
  length (ActiveHours.hourly_activity st) = 24%nat ->
  length (AppUsage.hourly_activity sa) = 24%nat ->
  length (Meetings.hourly_distribution sm) = 24%nat ->
  sum_list (ActiveHours.hourly_activity (ActiveHours.step st seg))
    = sum_list (ActiveHours.hourly_activity st) + (end_time seg - start_time seg) /\
  sum_values (ActiveHours.daily_activity (ActiveHours.step st seg))
    = sum_values (ActiveHours.daily_activity st) + (end_time seg - start_time seg) /\
  sum_list (AppUsage.hourly_activity (AppUsage.step sa seg))
    = sum_list (AppUsage.hourly_activity sa) + (end_time seg - start_time seg) /\
  sum_list (Meetings.hourly_distribution (Meetings.step sm ev))
    = sum_list (Meetings.hourly_distribution sm) + (ev_end_time ev - ev_start_time ev) /\
  sum_values (Meetings.daily_meeting_hours (Meetings.step sm ev))
    = sum_values (Meetings.daily_meeting_hours sm) + (ev_end_time ev - ev_start_time ev).
Proof.
  intros seg ev st sa sm Hlt Hd Hlt' Hd' Hl1 Hl2 Hl3.
  assert (HA : forall s e, s < e ->
    sum_list (apply_hours (hour_credits s e (e - s)) (ActiveHours.hourly_activity st))
      = sum_list (ActiveHours.hourly_activity st) + (e - s))
    by (intros; apply credit_hours_conserve; auto).
  repeat split.
  - unfold ActiveHours.step. positive_duration Hd.
    destruct (ActiveHours.current_period st) as [[a b]|];
      [destruct (_ <=? _)|]; simpl; auto.
  - unfold ActiveHours.step. positive_duration Hd.
    destruct (ActiveHours.current_period st) as [[a b]|];
      [destruct (_ <=? _)|]; simpl; auto using credit_days_conserve.
  - unfold AppUsage.step. positive_duration Hd. simpl.
    rewrite app_hour_credits_eq. apply credit_hours_conserve; auto.
  - unfold Meetings.step. positive_duration Hd'. simpl.
    apply credit_hours_conserve; auto.
  - unfold Meetings.step. positive_duration Hd'. simpl.
    apply credit_days_conserve; auto.
Qed.

Definition seg_example : segment :=
  mk_segment (13 * us_per_hour + 1800 * us_per_second)
             (38 * us_per_hour + 2700 * us_per_second)
             (Some "com.apple.Safari") (Some "Inbox") None
             (25 * us_per_hour + 900 * us_per_second).

Definition ev_example : event :=
  mk_event (Some "standup") (23 * us_per_hour + 1800 * us_per_second)
           (48 * us_per_hour + 1800 * us_per_second) (Some "Work") (25 * us_per_hour).

Lemma credited_seconds_conserved_witness :
  (start_time seg_example < end_time seg_example /\
   duration_seconds seg_example = end_time seg_example - start_time seg_example /\
   ev_start_time ev_example < ev_end_time ev_example /\
   ev_duration_seconds ev_example = ev_end_time ev_example - ev_start_time ev_example) /\
  sum_list (ActiveHours.hourly_activity (ActiveHours.step ActiveHours.init seg_example))
    = sum_list (ActiveHours.hourly_activity ActiveHours.init)
      + (end_time seg_example - start_time seg_example).
Proof.
  split; [vm_compute; repeat split; congruence|].
  apply (credited_seconds_conserved seg_example ev_example ActiveHours.init
           (AppUsage.init None) Meetings.init);
    vm_compute; congruence.
Defined.

(** ** Sessions of [get_active_hours] *)

Section Chains.
Context {A : Type} (R : A -> A -> Prop).

Lemma Sorted_snoc : forall l x y,
  Sorted R (l ++ [x]) -> R x y -> Sorted R (l ++ [x; y]).
Proof.
  induction l as [|a l IH]; intros x y Hs Hr; simpl in *.
  - repeat constructor; auto.
  - inversion Hs as [|? ? Hs' Hhd]; subst. constructor.
    + apply IH; auto.
    + destruct l; simpl in *; inversion Hhd; constructor; auto.
Qed.

Lemma Sorted_replace_last : forall l x x',
  Sorted R (l ++ [x]) -> (forall p, R p x -> R p x') -> Sorted R (l ++ [x']).
Proof.
  induction l as [|a l IH]; intros x x' Hs Hr; simpl in *.
  - repeat constructor.
  - inversion Hs as [|? ? Hs' Hhd]; subst. constructor.
    + eapply IH; eauto.
    + destruct l; simpl in *; inversion Hhd; constructor; auto.
Qed.
End Chains.

Module Sessions.
Import ActiveHours.

Definition wf_period (p : period) : Prop := p_start p < p_end p.

(** consecutive sessions are more than [gap_threshold] seconds apart *)
Definition gap_after (p q : period) : Prop :=
  p_start q - p_end p > gap_threshold * us_per_second.

Definition chain (ps : list period) : Prop := Forall wf_period ps /\ Sorted gap_after ps.

Definition inv (st : state) : Prop :=
  match current_period st with
  | None => active_periods st = []
  | Some (a, b) => chain (active_periods st ++ [close_period a b])
  end.

Definition wf_segment (seg : segment) : Prop :=
  duration_seconds seg = end_time seg - start_time seg.

Lemma step_inv : forall st seg, wf_segment seg -> inv st -> inv (step st seg).
Proof.
  intros st seg Hw Hi. unfold step.
  destruct (Z.leb_spec (duration_seconds seg) 0) as [Hle|Hgt]; [exact Hi|].
  unfold wf_segment in Hw.
  unfold inv in *.
  destruct (current_period st) as [[a b]|] eqn:Hc.
  - destruct Hi as [Hf Hs].
    destruct (Z.leb_spec (start_time seg - b) (gap_threshold * us_per_second)); simpl.
    + apply Forall_app in Hf as [Hf1 Hf2]. inversion Hf2; subst.
      split.
      * apply Forall_app; split; [exact Hf1|].
        constructor; [|constructor]. unfold wf_period in *; simpl in *; lia.
      * eapply Sorted_replace_last; [exact Hs|].
        intros p; unfold gap_after; simpl; auto.
    + split.
      * apply Forall_app; split; [exact Hf|].
        repeat constructor. unfold wf_period; simpl; lia.
      * rewrite <- app_assoc. simpl. apply Sorted_snoc; [exact Hs|].
        unfold gap_after, close_period, gap_threshold, us_per_second in *; simpl; lia.
  - simpl. rewrite Hi. simpl. split; repeat constructor.
    unfold wf_period; simpl; lia.
Qed.

Lemma fold_inv : forall segs st,
  Forall wf_segment segs -> inv st -> inv (fold_left step segs st).
Proof.
  induction segs as [|seg segs IH]; intros st Hw Hi; simpl; [exact Hi|].
  inversion Hw; subst. apply IH; auto using step_inv.
Qed.

Lemma ins_forall : forall {A} (before : A -> A -> bool) (P : A -> Prop) x l,
  P x -> Forall P l -> Forall P (ins before x l).
Proof.
  intros A before P x l Hx Hl. induction Hl; simpl; [repeat constructor; auto|].
  destruct (before x x0); repeat constructor; auto.
Qed.

Lemma stable_sort_forall : forall {A} (before : A -> A -> bool) (P : A -> Prop) l,
  Forall P l -> Forall P (stable_sort before l).
Proof.
  intros A before P l. unfold stable_sort.
  assert (G : forall acc, Forall P acc -> Forall P l ->
            Forall P (fold_left (fun acc x => ins before x acc) l acc)).
  { induction l as [|x l IH]; intros acc Ha Hl; simpl; [exact Ha|].
    inversion Hl; subst. apply IH; auto using ins_forall. }
  intros; apply G; auto.
Qed.

Lemma periods_chain : forall segs,
  Forall wf_segment segs -> chain (periods_of segs).
Proof.
  intros segs Hw. unfold periods_of.
  pose proof (fold_inv (sort_segments segs) init
                (stable_sort_forall _ _ _ Hw) eq_refl) as Hi.
  unfold inv in Hi.
  destruct (current_period (fold_left step (sort_segments segs) init)) as [[a b]|].
  - exact Hi.
  - rewrite Hi. split; constructor.
Qed.

Lemma chain_sorted : forall ps, chain ps ->
  StronglySorted (fun p q => p_end p < p_start q) ps /\
  Sorted (fun p q => p_start p < p_start q) ps.
Proof.
  induction ps as [|p ps IH]; intros [Hf Hs]; [split; constructor|].
  inversion Hf as [|? ? Hp Hf']; subst. inversion Hs as [|? ? Hs' Hhd]; subst.
  destruct (IH (conj Hf' Hs')) as [Hss Hst].
  split.
  - constructor; [exact Hss|].
    destruct ps as [|q ps]; [constructor|].
    inversion Hhd as [|? ? Hgap]; subst. unfold gap_after in Hgap.
    inversion Hf' as [|? ? Hq _]; subst. unfold wf_period in *.
    inversion Hss as [|? ? _ Hall]; subst.
    unfold gap_threshold, us_per_second in *.
    constructor; [lia|].
    eapply Forall_impl; [|exact Hall]. simpl; intros r Hr. lia.
  - constructor; [exact Hst|].
    destruct ps as [|q ps]; [constructor|].
    inversion Hhd as [|? ? Hgap]; subst. unfold gap_after, wf_period in *.
    constructor. unfold gap_threshold, us_per_second in *; lia.
Qed.
End Sessions.

(** ** C2: sessions are ordered and separated *)

(** C2: for every list of well-formed segments ([duration_seconds = end - start]),
    the [active_periods] of [get_active_hours] are each non-empty, pairwise
    non-overlapping (every earlier session ends before every later one starts),
    sorted by start, and consecutive sessions are more than [gap_threshold]
    (60 s) apart. *)
Theorem active_periods_separated :
  forall (segs : list segment) (start_time end_time : Z),
  Forall Sessions.wf_segment segs ->
  let ps := ActiveHours.r_active_periods (ActiveHours.report_of segs start_time end_time) in
  Forall Sessions.wf_period ps /\
  StronglySorted (fun p q => ActiveHours.p_end p < ActiveHours.p_start q) ps /\
  Sorted (fun p q => ActiveHours.p_start p < ActiveHours.p_start q) ps /\
  Sorted (fun p q => ActiveHours.p_start q - ActiveHours.p_end p > gap_threshold * us_per_second) ps.
Proof.
  intros segs a b Hw ps. unfold ps; simpl.
  destruct (Sessions.periods_chain segs Hw) as [Hf Hs].
  destruct (Sessions.chain_sorted _ (conj Hf Hs)) as [H1 H2].
  auto.
Qed.

Definition sessions_example : list segment :=
  [ mk_segment (9 * us_per_hour + 1920 * us_per_second) (10 * us_per_hour)
      (Some "Code") None None (1680 * us_per_second);
    mk_segment (9 * us_per_hour) (9 * us_per_hour + 1800 * us_per_second)
      (Some "Mail") None None (1800 * us_per_second);
    mk_segment (9 * us_per_hour + 1830 * us_per_second) (9 * us_per_hour + 1900 * us_per_second)
      (Some "Mail") None None (70 * us_per_second) ].

Lemma active_periods_separated_witness :
  Forall Sessions.wf_segment sessions_example /\
  Forall Sessions.wf_period
    (ActiveHours.r_active_periods (ActiveHours.report_of sessions_example 0 0)).
Proof.
  assert (Hw : Forall Sessions.wf_segment sessions_example)
    by (repeat constructor).
  split; [exact Hw|].
  exact (proj1 (active_periods_separated sessions_example 0 0 Hw)).
Defined.

(** ** C3: an interval that revisits its start hour on a later day *)

(** The time [[s, e)] spends in the absolute hour number [k] (hour [k mod 24]
    of day [k / 24]). *)
Definition hour_slot_overlap (s e k : Z) : Z :=
  Z.max 0 (Z.min e ((k + 1) * us_per_hour) - Z.max s (k * us_per_hour)).

(** From 10:15 on day 0 to 10:45 on day 1. *)
Definition revisit_segment : segment :=
  mk_segment (10 * us_per_hour + 900 * us_per_second)
             (34 * us_per_hour + 2700 * us_per_second)
             (Some "com.apple.Terminal") None None
             (24 * us_per_hour + 1800 * us_per_second).

Definition revisit_event : event :=
  mk_event (Some "offsite") (10 * us_per_hour + 900 * us_per_second)
           (34 * us_per_hour + 2700 * us_per_second) (Some "Work")
           (24 * us_per_hour + 1800 * us_per_second).

(** C3 (failing input): an interval from 10:15 on one day to 10:45 on the next
    ([duration_seconds = end - start], 88200 s) has the same start and end hour
    number, so all three builders credit its whole 88200 s to hour 10 and
    nothing to any other hour, although it spends only 2700 s + 2700 s in hours
    numbered 10 (and time in every other hour of the day). *)
Theorem same_hour_number_across_days :
  duration_seconds revisit_segment = end_time revisit_segment - start_time revisit_segment /\
  hour_of (start_time revisit_segment) = hour_of (end_time revisit_segment) /\
  hour_credits (start_time revisit_segment) (end_time revisit_segment)
    (duration_seconds revisit_segment) = [(10, 88200 * us_per_second)] /\
  nth 10 (ActiveHours.hourly_activity (ActiveHours.step ActiveHours.init revisit_segment)) 0
    = 88200 * us_per_second /\
  nth 10 (AppUsage.hourly_activity (AppUsage.step (AppUsage.init None) revisit_segment)) 0
    = 88200 * us_per_second /\
  nth 10 (Meetings.hourly_distribution (Meetings.step Meetings.init revisit_event)) 0
    = 88200 * us_per_second /\
  nth 11 (ActiveHours.hourly_activity (ActiveHours.step ActiveHours.init revisit_segment)) 0
    = 0 /\
  hour_slot_overlap (start_time revisit_segment) (end_time revisit_segment) 10
  + hour_slot_overlap (start_time revisit_segment) (end_time revisit_segment) 34
    = 5400 * us_per_second /\
  hour_slot_overlap (start_time revisit_segment) (end_time revisit_segment) 11
    = 3600 * us_per_second.
Proof. vm_compute. repeat split. Qed.

(** ** C4: zero-duration intervals *)

Lemma ins_split : forall {A} (before : A -> A -> bool) x l,
  exists l1 l2, l = l1 ++ l2 /\ ins before x l = l1 ++ x :: l2.
Proof.
  intros A before x l. induction l as [|y l IH]; simpl.
  - exists [], []. auto.
  - destruct (before x y).
    + exists [], (y :: l). auto.
    + destruct IH as (l1 & l2 & -> & ->). exists (y :: l1), l2. auto.
Qed.

Lemma stable_sort_snoc : forall {A} (before : A -> A -> bool) l x,
  stable_sort before (l ++ [x]) = ins before x (stable_sort before l).
Proof. intros. unfold stable_sort. rewrite fold_left_app. reflexivity. Qed.

Lemma fold_skip : forall {S A} (f : S -> A -> S) z l1 l2 st,
  (forall s, f s z = s) ->
  fold_left f (l1 ++ z :: l2) st = fold_left f (l1 ++ l2) st.
Proof. intros. rewrite !fold_left_app. simpl. rewrite H. reflexivity. Qed.

Lemma active_fold_zero : forall segs z,
  duration_seconds z <= 0 ->
  fold_left ActiveHours.step (ActiveHours.sort_segments (segs ++ [z])) ActiveHours.init
  = fold_left ActiveHours.step (ActiveHours.sort_segments segs) ActiveHours.init.
Proof.
  intros segs z Hz. unfold ActiveHours.sort_segments.
  rewrite stable_sort_snoc.
  destruct (ins_split (fun x y => start_time x <? start_time y) z
              (stable_sort (fun x y => start_time x <? start_time y) segs))
    as (l1 & l2 & Hl & Hi).
  rewrite Hi, Hl. apply fold_skip.
  intro st. unfold ActiveHours.step. rewrite (proj2 (Z.leb_le _ _) Hz). reflexivity.
Qed.

(** C4 (as stated: refuted): appending a zero-length event to the input of
    [get_meetings] changes the report: [events] is the raw fetched list and
    [total_events = len(events)] counts it. *)
Definition meeting_example : event :=
  mk_event (Some "1:1") (9 * us_per_hour) (10 * us_per_hour) (Some "Work") us_per_hour.

Definition zero_event : event :=
  mk_event (Some "reminder") (12 * us_per_hour) (12 * us_per_hour) (Some "Work") 0.

Lemma zero_duration_event_changes_report :
  Meetings.total_events (Meetings.report_of [meeting_example; zero_event] 0 0) = 2%nat /\
  Meetings.total_events (Meetings.report_of [meeting_example] 0 0) = 1%nat /\
  Meetings.report_of ([meeting_example] ++ [zero_event]) 0 0
    <> Meetings.report_of [meeting_example] 0 0.
Proof.
  split; [reflexivity|]. split; [reflexivity|].
  intro H. apply (f_equal Meetings.total_events) in H. discriminate H.
Qed.

(** C4 (amended): appending a zero-length interval ([start == end],
    [duration_seconds = end - start]) leaves the whole active-hours and
    app-usage reports unchanged, and leaves the meetings report's calendar
    stats, day and hour buckets, [total_seconds] and [total_hours] unchanged;
    the meetings report's [events] is the raw list, which does contain it. *)
Theorem zero_duration_interval_ignored :
  forall (segs : list segment) (z : segment) (evs : list event) (ze : event)
         (a b now : Z) (et : option Z),
  start_time z = end_time z ->
  duration_seconds z = end_time z - start_time z ->
  ev_start_time ze = ev_end_time ze ->
  ev_duration_seconds ze = ev_end_time ze - ev_start_time ze ->
  ActiveHours.report_of (segs ++ [z]) a b = ActiveHours.report_of segs a b /\
  AppUsage.report_of (segs ++ [z]) a et now = AppUsage.report_of segs a et now /\
  (let r' := Meetings.report_of (evs ++ [ze]) a b in
   let r := Meetings.report_of evs a b in
   Meetings.r_calendar_stats r' = Meetings.r_calendar_stats r /\
   Meetings.r_daily_meeting_hours r' = Meetings.r_daily_meeting_hours r /\
   Meetings.r_hourly_distribution r' = Meetings.r_hourly_distribution r /\
   Meetings.r_total_seconds r' = Meetings.r_total_seconds r /\
   Meetings.total_hours r' = Meetings.total_hours r /\
   Meetings.events r' = evs ++ [ze]).
Proof.
  intros segs z evs ze a b now et Hz Hdz Hze Hdze.
  assert (Hz0 : duration_seconds z <= 0) by lia.
  assert (Hze0 : ev_duration_seconds ze <= 0) by lia.
  split; [|split].
  - unfold ActiveHours.report_of, ActiveHours.periods_of.
    rewrite active_fold_zero by exact Hz0. reflexivity.
  - assert (Hf : fold_left AppUsage.step (segs ++ [z]) (AppUsage.init et)
                  = fold_left AppUsage.step segs (AppUsage.init et)).
    { rewrite fold_left_app. cbn [fold_left]. unfold AppUsage.step at 1.
      rewrite (proj2 (Z.leb_le _ _) Hz0). reflexivity. }
    unfold AppUsage.report_of. rewrite Hf. reflexivity.
  - assert (Hf : fold_left Meetings.step (evs ++ [ze]) Meetings.init
                  = fold_left Meetings.step evs Meetings.init).
    { rewrite fold_left_app. cbn [fold_left]. unfold Meetings.step at 1.
      rewrite (proj2 (Z.leb_le _ _) Hze0). reflexivity. }
    unfold Meetings.report_of. rewrite Hf. repeat split.
Qed.

Definition zero_segment : segment :=
  mk_segment (12 * us_per_hour) (12 * us_per_hour) (Some "Finder") None None 0.

Lemma zero_duration_interval_ignored_witness :
  (start_time zero_segment = end_time zero_segment /\
   duration_seconds zero_segment = end_time zero_segment - start_time zero_segment /\
   ev_start_time zero_event = ev_end_time zero_event /\
   ev_duration_seconds zero_event = ev_end_time zero_event - ev_start_time zero_event) /\
  ActiveHours.report_of (sessions_example ++ [zero_segment]) 0 0
    = ActiveHours.report_of sessions_example 0 0.
Proof.
  split; [vm_compute; repeat split|].
  exact (proj1 (zero_duration_interval_ignored sessions_example zero_segment
                  [meeting_example] zero_event 0 0 0 None
                  eq_refl eq_refl eq_refl eq_refl)).
Defined.

(** ** C5: percentages *)

From Stdlib Require Import Permutation.

Lemma ins_perm : forall {A} (before : A -> A -> bool) x l,
  Permutation (x :: l) (ins before x l).
Proof.
  intros A before x l. induction l as [|y l IH]; simpl; [auto|].
  destruct (before x y); [auto|].
  eapply perm_trans; [apply perm_swap | apply perm_skip, IH].
Qed.

Lemma stable_sort_perm : forall {A} (before : A -> A -> bool) l,
  Permutation l (stable_sort before l).
Proof.
  intros A before l. unfold stable_sort.
  assert (G : forall acc, Permutation (l ++ acc)
                (fold_left (fun acc x => ins before x acc) l acc)).
  { induction l as [|x l IH]; intros acc; simpl; [auto|].
    eapply perm_trans; [|apply IH].
    eapply perm_trans; [apply Permutation_middle|].
    apply Permutation_app_head, ins_perm. }
  rewrite <- (app_nil_r l) at 1. apply G.
Qed.

Lemma perm_sum : forall {A} (m : A -> Z) l l',
  Permutation l l' ->
  fold_right (fun x acc => m x + acc) 0 l = fold_right (fun x acc => m x + acc) 0 l'.
Proof. intros A m l l' H. induction H; simpl; lia. Qed.

Lemma in_firstn : forall {A} n (x : A) l, In x (firstn n l) -> In x l.
Proof.
  intros A n x l H. rewrite <- (firstn_skipn n l). apply in_or_app. auto.
Qed.

Lemma in_sorted : forall {A} (before : A -> A -> bool) n x l,
  In x (firstn n (stable_sort before l)) -> In x l.
Proof.
  intros A before n x l H. apply in_firstn in H.
  eapply Permutation_in; [symmetry; apply stable_sort_perm | exact H].
Qed.

(** The seconds a segment contributes once the [duration <= 0] filter ran. *)
Definition positive_duration (seg : segment) : Z :=
  if duration_seconds seg <=? 0 then 0 else duration_seconds seg.

Definition positive_event_duration (ev : event) : Z :=
  if ev_duration_seconds ev <=? 0 then 0 else ev_duration_seconds ev.

Definition app_grand_total (au : list (option string * AppUsage.app_data)) : Z :=
  fold_right (fun ad acc => AppUsage.total_seconds (snd ad) + acc) 0 au.

Definition calendar_grand_total (cs : list (string * Meetings.cal_data)) : Z :=
  fold_right (fun cd acc => Meetings.total_seconds (snd cd) + acc) 0 cs.

Lemma app_fold_total : forall segs st,
  app_grand_total (AppUsage.app_usage (fold_left AppUsage.step segs st))
  = app_grand_total (AppUsage.app_usage st) + sum_list (map positive_duration segs).
Proof.
  induction segs as [|seg segs IH]; intros st; simpl; [lia|].
  rewrite IH. unfold positive_duration, AppUsage.step.
  destruct (Z.leb_spec (duration_seconds seg) 0); [lia|]. simpl.
  unfold app_grand_total.
  rewrite (dict_upd_sum opt_string_eqb AppUsage.total_seconds _ _ _ (duration_seconds seg));
    [lia | reflexivity |].
  intro v. unfold AppUsage.update_app. destruct (truthy (window seg)); reflexivity.
Qed.

Lemma meetings_fold_total : forall evs st,
  calendar_grand_total (Meetings.calendar_stats (fold_left Meetings.step evs st))
  = calendar_grand_total (Meetings.calendar_stats st) + sum_list (map positive_event_duration evs) /\
  Meetings.total_duration (fold_left Meetings.step evs st)
  = Meetings.total_duration st + sum_list (map positive_event_duration evs).
Proof.
  induction evs as [|ev evs IH]; intros st; simpl; [lia|].
  destruct (IH (Meetings.step st ev)) as [H1 H2]. rewrite H1, H2.
  unfold positive_event_duration, Meetings.step.
  destruct (Z.leb_spec (ev_duration_seconds ev) 0); [lia|]. simpl.
  unfold calendar_grand_total.
  rewrite (dict_upd_sum String.eqb Meetings.total_seconds _ _ _ (ev_duration_seconds ev));
    [lia | reflexivity | reflexivity].
Qed.

Lemma sum_positive_zero : forall {A} (pos : A -> Z) l,
  (forall x, 0 <= pos x) -> sum_list (map pos l) = 0 -> Forall (fun x => pos x = 0) l.
Proof.
  intros A pos l Hp. induction l as [|x l IH]; simpl; intros H; constructor.
  - pose proof (Hp x). assert (0 <= sum_list (map pos l)).
    { clear IH H. induction l; simpl; [lia|]. pose proof (Hp a); lia. }
    lia.
  - apply IH. pose proof (Hp x). assert (0 <= sum_list (map pos l)).
    { clear IH H. induction l; simpl; [lia|]. pose proof (Hp a); lia. }
    lia.
Qed.

Lemma app_fold_idle : forall segs st,
  Forall (fun seg => positive_duration seg = 0) segs -> fold_left AppUsage.step segs st = st.
Proof.
  induction segs as [|seg segs IH]; intros st H; simpl; [reflexivity|].
  inversion H as [|? ? Hs H']; subst. unfold positive_duration in Hs.
  unfold AppUsage.step at 2.
  destruct (Z.leb_spec (duration_seconds seg) 0); [apply IH; exact H'|lia].
Qed.

Lemma meetings_fold_idle : forall evs st,
  Forall (fun ev => positive_event_duration ev = 0) evs -> fold_left Meetings.step evs st = st.
Proof.
  induction evs as [|ev evs IH]; intros st H; simpl; [reflexivity|].
  inversion H as [|? ? Hs H']; subst. unfold positive_event_duration in Hs.
  unfold Meetings.step at 2.
  destruct (Z.leb_spec (ev_duration_seconds ev) 0); [apply IH; exact H'|lia].
Qed.

Lemma positive_duration_nonneg : forall seg, 0 <= positive_duration seg.
Proof. intro seg. unfold positive_duration. destruct (Z.leb_spec (duration_seconds seg) 0); lia. Qed.

Lemma positive_event_duration_nonneg : forall ev, 0 <= positive_event_duration ev.
Proof.
  intro ev. unfold positive_event_duration.
  destruct (Z.leb_spec (ev_duration_seconds ev) 0); lia.
Qed.

Lemma total_duration_of_sorted : forall au,
  au <> [] ->
  AppUsage.total_duration_of
    (AppUsage.sort_desc (fun ad => AppUsage.total_seconds (snd ad)) au)
  = app_grand_total au.
Proof.
  intros au Hne. unfold AppUsage.total_duration_of, AppUsage.sort_desc.
  pose proof (stable_sort_perm (fun x y : option string * AppUsage.app_data =>
                AppUsage.total_seconds (snd y) <? AppUsage.total_seconds (snd x)) au) as Hp.
  destruct (stable_sort _ au) eqn:Hs.
  - symmetry in Hp. apply Permutation_nil in Hp. contradiction.
  - rewrite <- Hs. unfold app_grand_total. symmetry.
    rewrite Hs. apply (perm_sum (fun ad => AppUsage.total_seconds (snd ad))). exact Hp.
Qed.

(** C5: in [get_app_usage] the percentage of every listed app and every listed
    URL is [round(total_seconds / G * 100, 2)] with [G] the sum of the totals of
    ALL apps (equal to the seconds of all positive-duration segments), not of
    the top 10 shown; in [get_meetings] every calendar's percentage is
    [round(total_seconds / G' * 100, 2)] with [G'] the sum of the totals of all
    calendars.  When the grand total is 0, there is no app, URL or calendar
    entry, every hourly percentage is 0 and the displayed [total_hours] is 0. *)
Theorem percentages_of_grand_total :
  forall (segs : list segment) (evs : list event) (a b now : Z) (et : option Z),
  (let st := fold_left AppUsage.step segs (AppUsage.init et) in
   let r := AppUsage.report_of segs a et now in
   let G := app_grand_total (AppUsage.app_usage st) in
   G = sum_list (map positive_duration segs) /\
   (forall e, In e (AppUsage.top_apps r) ->
      exists ad, In ad (AppUsage.app_usage st) /\ AppUsage.name e = fst ad /\
                 AppUsage.percentage e = AppUsage.pct (AppUsage.total_seconds (snd ad)) G) /\
   (forall u, In u (AppUsage.top_urls r) ->
      exists ud, In ud (AppUsage.browser_usage st) /\ AppUsage.url u = fst ud /\
                 AppUsage.u_percentage u = AppUsage.pct (snd ud) G) /\
   (G = 0 ->
      AppUsage.top_apps r = [] /\ AppUsage.top_urls r = [] /\
      Forall (fun h => AppUsage.h_percentage h == 0)%Q (AppUsage.r_hourly_activity r) /\
      (AppUsage.total_hours r == 0)%Q)) /\
  (let sm := fold_left Meetings.step evs Meetings.init in
   let rm := Meetings.report_of evs a b in
   let G' := calendar_grand_total (Meetings.calendar_stats sm) in
   G' = Meetings.r_total_seconds rm /\
   G' = sum_list (map positive_event_duration evs) /\
   (forall c, In c (Meetings.r_calendar_stats rm) ->
      exists cd, In cd (Meetings.calendar_stats sm) /\ Meetings.c_calendar c = fst cd /\
        Meetings.c_percentage c =
          (if G' >? 0
           then round2 (inject_Z (Meetings.total_seconds (snd cd)) / inject_Z G' * 100)
           else 0)%Q) /\
   (G' = 0 -> Meetings.r_calendar_stats rm = [] /\ (Meetings.total_hours rm == 0)%Q)).
Proof.
  intros segs evs a b now et. split.
  - intros st r G.
    assert (HG : G = sum_list (map positive_duration segs)).
    { unfold G, st. rewrite app_fold_total. reflexivity. }
    assert (Hidle : G = 0 -> st = AppUsage.init et).
    { intro H0. unfold st. apply app_fold_idle.
      apply sum_positive_zero; [apply positive_duration_nonneg | lia]. }
    split; [exact HG|].
    destruct (Z.eq_dec G 0) as [G0|Gn].
    + assert (Hr : r = AppUsage.report_of segs a et now) by reflexivity.
      unfold AppUsage.report_of in Hr. fold st in Hr. rewrite (Hidle G0) in Hr.
      rewrite Hr. clear Hr. split; [intros e He; cbn in He; contradiction|].
      split; [intros u Hu; cbn in Hu; contradiction|].
      intros _. vm_compute. repeat split; repeat constructor.
    + assert (Hne : AppUsage.app_usage st <> []).
      { intro Hnil. apply Gn. unfold G. rewrite Hnil. reflexivity. }
      assert (Htd := total_duration_of_sorted _ Hne). fold G in Htd.
      assert (Hr : r = AppUsage.report_of segs a et now) by reflexivity.
      unfold AppUsage.report_of in Hr. fold st in Hr. rewrite Htd in Hr.
      split; [|split].
      * intros e He. rewrite Hr in He. cbn [AppUsage.top_apps] in He.
        apply in_map_iff in He as [ad [<- Hin]].
        exists ad. split; [eapply in_sorted; exact Hin|]. split; reflexivity.
      * intros u Hu. rewrite Hr in Hu. cbn [AppUsage.top_urls] in Hu.
        apply in_map_iff in Hu as [ud [<- Hin]].
        exists ud. split; [eapply in_sorted; exact Hin|]. split; reflexivity.
      * intro G0. contradiction.
  - intros sm rm G'.
    destruct (meetings_fold_total evs Meetings.init) as [H1 H2].
    fold sm in H1, H2. simpl in H1, H2.
    assert (HT : G' = Meetings.r_total_seconds rm).
    { unfold G', rm. simpl. fold sm. lia. }
    split; [exact HT|]. split; [unfold G'; lia|]. split.
    + intros c Hc. unfold rm, Meetings.report_of in Hc. simpl in Hc. fold sm in Hc.
      apply (Permutation_in _ (Permutation_sym (stable_sort_perm _ _))) in Hc.
      apply in_map_iff in Hc as [cd [<- Hin]].
      exists cd. split; [exact Hin|]. split; [reflexivity|].
      unfold Meetings.fmt_cal. simpl. replace (Meetings.total_duration sm) with G' by lia.
      reflexivity.
    + intro G0.
      assert (Hst : sm = Meetings.init).
      { unfold sm. apply meetings_fold_idle.
        apply sum_positive_zero; [apply positive_event_duration_nonneg | unfold G' in *; lia]. }
      unfold rm, Meetings.report_of. fold sm. rewrite Hst. vm_compute. split; reflexivity.
Qed.

(** ** C6: empty input *)

(** C6: on an empty interval list each builder yields 24 hour buckets for hours
    0..23 with value 0, empty day / period / app / URL / calendar lists and
    summary scalars equal to 0. *)
Theorem empty_input_reports :
  forall (a b now : Z) (et : option Z),
  (let r := ActiveHours.report_of [] a b in
   map key (ActiveHours.r_hourly_activity r) = map Z.of_nat (seq 0 24) /\
   Forall (fun bk => seconds bk = 0 /\ (hours bk == 0)%Q) (ActiveHours.r_hourly_activity r) /\
   ActiveHours.r_daily_activity r = [] /\ ActiveHours.r_active_periods r = [] /\
   ActiveHours.total_active_seconds r = 0 /\ (ActiveHours.total_active_hours r == 0)%Q /\
   (ActiveHours.avg_session_seconds r == 0)%Q /\ (ActiveHours.avg_session_minutes r == 0)%Q /\
   ActiveHours.session_count r = 0%nat) /\
  (let r := AppUsage.report_of [] a et now in
   map AppUsage.hour (AppUsage.r_hourly_activity r) = map Z.of_nat (seq 0 24) /\
   Forall (fun h => (AppUsage.h_hours h == 0)%Q /\ (AppUsage.h_percentage h == 0)%Q)
          (AppUsage.r_hourly_activity r) /\
   AppUsage.top_apps r = [] /\ AppUsage.top_urls r = [] /\
   AppUsage.total_apps r = 0%nat /\ AppUsage.total_windows r = 0%nat /\
   AppUsage.total_urls r = 0%nat /\ (AppUsage.total_hours r == 0)%Q) /\
  (let r := Meetings.report_of [] a b in
   map key (Meetings.r_hourly_distribution r) = map Z.of_nat (seq 0 24) /\
   Forall (fun bk => seconds bk = 0 /\ (hours bk == 0)%Q) (Meetings.r_hourly_distribution r) /\
   Meetings.events r = [] /\ Meetings.r_calendar_stats r = [] /\
   Meetings.r_daily_meeting_hours r = [] /\ Meetings.total_events r = 0%nat /\
   Meetings.r_total_seconds r = 0 /\ (Meetings.total_hours r == 0)%Q /\
   (Meetings.avg_meeting_seconds r == 0)%Q /\ (Meetings.avg_meeting_minutes r == 0)%Q).
Proof.
  intros a b now et. vm_compute.
  repeat split; repeat (constructor; [split; reflexivity|]); constructor.
Qed.

(** ** C7: midnight splitting *)

Definition midnight_segment : segment :=
  mk_segment (23 * us_per_hour + 1800 * us_per_second)
             (24 * us_per_hour + 1800 * us_per_second)
             (Some "com.apple.Safari") None None (3600 * us_per_second).

(** C7: the day bucketizer shared by [get_active_hours] and [get_meetings]
    splits 23:30 - 00:30 into 1800 s for the first day and 1800 s for the
    second (so do both reports), and for every interval [s < e] with
    [duration_seconds = e - s] it credits each day [d] exactly the time the
    interval spends on [d], however many midnights lie in between; one loop
    iteration adds exactly that amount to the day's entry. *)
Theorem day_buckets_split_at_midnight :
  forall (s e d : Z) (st : ActiveHours.state) (seg : segment),
  s < e ->
  start_time seg < end_time seg ->
  duration_seconds seg = end_time seg - start_time seg ->
  day_credits (start_time midnight_segment) (end_time midnight_segment)
              (duration_seconds midnight_segment)
    = [(0, 1800 * us_per_second); (1, 1800 * us_per_second)] /\
  ActiveHours.r_daily_activity (ActiveHours.report_of [midnight_segment] 0 0)
    = [mk_bucket 0 (1800 * us_per_second) (round2 (1 # 2));
       mk_bucket 1 (1800 * us_per_second) (round2 (1 # 2))] /\
  Meetings.r_daily_meeting_hours
    (Meetings.report_of [mk_event None (start_time midnight_segment)
                           (end_time midnight_segment) None (3600 * us_per_second)] 0 0)
    = [mk_bucket 0 (1800 * us_per_second) (round2 (1 # 2));
       mk_bucket 1 (1800 * us_per_second) (round2 (1 # 2))] /\
  credit_at d (day_credits s e (e - s)) = day_overlap s e d /\
  dict_get d (ActiveHours.daily_activity (ActiveHours.step st seg))
    = dict_get d (ActiveHours.daily_activity st) + day_overlap (start_time seg) (end_time seg) d.
Proof.
  intros s e d st seg Hlt Hlt' Hd.
  split; [vm_compute; reflexivity|].
  split; [vm_compute; reflexivity|].
  split; [vm_compute; reflexivity|].
  split; [apply day_credits_at; exact Hlt|].
  unfold ActiveHours.step. positive_duration Hd.
  destruct (ActiveHours.current_period st) as [[a b]|];
    [destruct (_ <=? _)|]; simpl; rewrite apply_days_get, day_credits_at; auto.
Qed.

(** An event spanning three midnights. *)
Definition multi_day_segment : segment :=
  mk_segment (22 * us_per_hour) (96 * us_per_hour + 60 * us_per_second)
             (Some "com.apple.iCal") None None (74 * us_per_hour + 60 * us_per_second).

Lemma day_buckets_split_at_midnight_witness :
  (0 < 1 /\ start_time multi_day_segment < end_time multi_day_segment /\
   duration_seconds multi_day_segment = end_time multi_day_segment - start_time multi_day_segment) /\
  dict_get 2 (ActiveHours.daily_activity (ActiveHours.step ActiveHours.init multi_day_segment))
    = 0 + day_overlap (start_time multi_day_segment) (end_time multi_day_segment) 2.
Proof.
  split; [vm_compute; repeat split; reflexivity|].
  exact (proj2 (proj2 (proj2 (proj2
    (day_buckets_split_at_midnight 0 1 2 ActiveHours.init multi_day_segment
       eq_refl eq_refl eq_refl))))).
Defined.

(** ** C8: unnamed categories *)

Definition unnamed_segments : list segment :=
  [ mk_segment (9 * us_per_hour) (10 * us_per_hour) None (Some "a") None us_per_hour;
    mk_segment (10 * us_per_hour) (11 * us_per_hour) (Some "") (Some "b") None us_per_hour;
    mk_segment (11 * us_per_hour) (12 * us_per_hour) None (Some "c") None us_per_hour ].

Definition unnamed_events : list event :=
  [ mk_event (Some "x") (9 * us_per_hour) (10 * us_per_hour) None us_per_hour;
    mk_event (Some "y") (10 * us_per_hour) (11 * us_per_hour) (Some "") us_per_hour ].

(** C8 (failing input): [get_meetings] folds a [None] and an empty calendar
    name into one ["Unknown"] group, but [get_app_usage] keys [app_usage] by the
    raw [segment['application']]: [None] and [""] form two separate groups and
    neither is named ["Unknown"]. *)
Theorem unknown_name_not_normalised_in_app_usage :
  map AppUsage.name (AppUsage.top_apps (AppUsage.report_of unnamed_segments 0 None 0))
    = [None; Some ""] /\
  AppUsage.total_apps (AppUsage.report_of unnamed_segments 0 None 0) = 2%nat /\
  map (fun c => (Meetings.c_calendar c, Meetings.c_event_count c))
      (Meetings.r_calendar_stats (Meetings.report_of unnamed_events 0 0))
    = [("Unknown", 2)].
Proof. vm_compute. repeat split. Qed.

(** ** C9: absolute versus relative window *)

(** C9 (failing input): with only [end_time] given, all three builders take the
    relative branch and query [[now - delta, now]]; [get_active_hours] and
    [get_meetings] also report [time_range = (now - delta, now)], but
    [get_app_usage] never assigns [end_time = now] there, so its [time_range]
    still ends at the supplied [end_time] (when no segment crosses an hour). *)
Theorem one_sided_window :
  forall (get_segments : Z -> Z -> list segment) (get_events : Z -> Z -> list event)
         (now now_at_return t : Z) (days hours minutes seconds : Z),
  let st := now - timedelta days hours minutes seconds in
  ActiveHours.get_active_hours get_segments now None (Some t) days hours minutes seconds
    = ActiveHours.report_of (get_segments st now) st now /\
  ActiveHours.get_active_hours get_segments now (Some t) None days hours minutes seconds
    = ActiveHours.report_of (get_segments st now) st now /\
  Meetings.get_meetings get_events now None (Some t) days hours minutes seconds
    = Meetings.report_of (get_events st now) st now /\
  Meetings.get_meetings get_events now (Some t) None days hours minutes seconds
    = Meetings.report_of (get_events st now) st now /\
  AppUsage.get_app_usage get_segments now now_at_return (Some t) None days hours minutes seconds
    = AppUsage.report_of (get_segments st now) st None now_at_return /\
  AppUsage.get_app_usage get_segments now now_at_return None (Some t) days hours minutes seconds
    = AppUsage.report_of (get_segments st now) st (Some t) now_at_return /\
  AppUsage.time_range
    (AppUsage.get_app_usage (fun _ _ => []) now now_at_return None (Some t) 0 0 0 0)
    = (now, t) /\
  ActiveHours.time_range
    (ActiveHours.get_active_hours (fun _ _ => []) now None (Some t) 0 0 0 0)
    = (now, now).
Proof.
  intros. repeat split.
  - unfold AppUsage.get_app_usage, AppUsage.report_of. cbn.
    f_equal. f_equal. unfold timedelta. lia.
  - unfold ActiveHours.get_active_hours, ActiveHours.report_of. cbn.
    f_equal. lia.
Qed.

(** ** C10: segments without a window name *)

Lemma truthy_nonempty : forall o s, truthy o = Some s -> s <> "".
Proof.
  intros [s'|] s H; simpl in H; [|discriminate].
  destruct (String.eqb_spec s' ""); [discriminate|]. congruence.
Qed.

Lemma dict_upd_forall : forall {K V} (eqb : K -> K -> bool) (P : K -> V -> Prop) k dflt f d,
  Forall (fun kv => P (fst kv) (snd kv)) d ->
  P k (f dflt) -> (forall k' v, P k' v -> P k' (f v)) ->
  Forall (fun kv => P (fst kv) (snd kv)) (dict_upd eqb k dflt f d).
Proof.
  intros K V eqb P k dflt f d Hd Hk Hf.
  induction Hd as [|[k' v] d Hv Hd IH]; simpl; [repeat constructor; auto|].
  simpl in Hv. destruct (eqb k k'); constructor; simpl; auto.
Qed.

Definition named_windows (st : AppUsage.state) : Prop :=
  Forall (fun ad => Forall (fun wd => fst wd <> "") (AppUsage.windows (snd ad)))
         (AppUsage.app_usage st) /\
  Forall (fun wd => fst wd <> "") (AppUsage.window_usage st).

Lemma named_windows_step : forall st seg, named_windows st -> named_windows (AppUsage.step st seg).
Proof.
  intros st seg [Ha Hw]. unfold AppUsage.step.
  destruct (duration_seconds seg <=? 0); [split; assumption|].
  split; simpl.
  - apply (dict_upd_forall _ (fun _ v => Forall (fun wd => fst wd <> "") (AppUsage.windows v)));
      [exact Ha | |].
    + unfold AppUsage.update_app. destruct (truthy (window seg)) eqn:Ht; simpl; [|constructor].
      repeat constructor. simpl. eapply truthy_nonempty; eauto.
    + intros k' v Hv. unfold AppUsage.update_app.
      destruct (truthy (window seg)) eqn:Ht; simpl; [|exact Hv].
      unfold dict_add. apply (dict_upd_forall _ (fun k _ => k <> "")); auto.
      eapply truthy_nonempty; eauto.
  - destruct (truthy (window seg)) eqn:Ht; [|exact Hw].
    unfold dict_add. apply (dict_upd_forall _ (fun k _ => k <> "")); auto.
    eapply truthy_nonempty; eauto.
Qed.

Lemma named_windows_fold : forall segs st,
  named_windows st -> named_windows (fold_left AppUsage.step segs st).
Proof.
  induction segs as [|seg segs IH]; intros st H; simpl; auto using named_windows_step.
Qed.

Definition window_example : list segment :=
  [ mk_segment (9 * us_per_hour) (10 * us_per_hour) (Some "com.apple.Safari")
      (Some "Inbox") None us_per_hour;
    mk_segment (10 * us_per_hour) (11 * us_per_hour) (Some "com.apple.Safari")
      None None us_per_hour ].

(** C10: in [get_app_usage] a segment whose window is [None] or [""] only adds
    its duration to its app's [total_seconds]: the app's [windows] and
    [window_count] and the global [window_usage] (hence [total_windows]) are
    untouched; no listed window is ever unnamed; and so an app's [top_windows]
    percentages can sum to less than 100 (here: one window at 50%). *)
Theorem unnamed_window_not_counted :
  forall (st : AppUsage.state) (seg : segment) (segs : list segment)
         (a now : Z) (et : option Z),
  0 < duration_seconds seg ->
  window seg = None \/ window seg = Some "" ->
  AppUsage.window_usage (AppUsage.step st seg) = AppUsage.window_usage st /\
  AppUsage.app_usage (AppUsage.step st seg)
    = dict_upd opt_string_eqb (application seg) AppUsage.app_data0
        (fun d => AppUsage.mk_app_data (AppUsage.total_seconds d + duration_seconds seg)
                    (AppUsage.window_count d) (AppUsage.windows d))
        (AppUsage.app_usage st) /\
  (forall e w, In e (AppUsage.top_apps (AppUsage.report_of segs a et now)) ->
     In w (AppUsage.top_windows e) -> AppUsage.w_name w <> "") /\
  map AppUsage.w_percentage
      (flat_map AppUsage.top_windows
         (AppUsage.top_apps (AppUsage.report_of window_example 0 None 0)))
    = [5000 # 100]%Q.
Proof.
  intros st seg segs a now et Hpos Hw.
  assert (Ht : truthy (window seg) = None) by (destruct Hw as [-> | ->]; reflexivity).
  split; [|split; [|split]].
  - unfold AppUsage.step. rewrite (proj2 (Z.leb_gt _ _) Hpos). simpl. rewrite Ht. reflexivity.
  - unfold AppUsage.step. rewrite (proj2 (Z.leb_gt _ _) Hpos). simpl.
    unfold AppUsage.update_app. rewrite Ht. reflexivity.
  - intros e w He Hw'.
    destruct (named_windows_fold segs (AppUsage.init et) (conj (Forall_nil _) (Forall_nil _)))
      as [Ha _].
    unfold AppUsage.report_of in He. cbn [AppUsage.top_apps] in He.
    apply in_map_iff in He as [ad [<- Hin]]. apply in_sorted in Hin.
    unfold AppUsage.fmt_app in Hw'. cbn [AppUsage.top_windows] in Hw'.
    apply in_map_iff in Hw' as [wd [<- Hwd]]. apply in_sorted in Hwd.
    rewrite Forall_forall in Ha. specialize (Ha ad Hin).
    rewrite Forall_forall in Ha. exact (Ha wd Hwd).
  - vm_compute. reflexivity.
Qed.

Lemma unnamed_window_not_counted_witness :
  (0 < duration_seconds (nth 1 window_example zero_segment) /\
   (window (nth 1 window_example zero_segment) = None \/
    window (nth 1 window_example zero_segment) = Some "")) /\
  AppUsage.window_usage
    (AppUsage.step (AppUsage.step (AppUsage.init None) (nth 0 window_example zero_segment))
       (nth 1 window_example zero_segment))
  = AppUsage.window_usage (AppUsage.step (AppUsage.init None) (nth 0 window_example zero_segment)).
Proof.
  split; [split; [reflexivity | left; reflexivity]|].
  exact (proj1 (unnamed_window_not_counted
                  (AppUsage.step (AppUsage.init None) (nth 0 window_example zero_segment))
                  (nth 1 window_example zero_segment) window_example 0 0 None
                  eq_refl (or_introl eq_refl))).
Defined.

(** * Further functions of the package *)

(** ** [utils.group_results_by_time] *)

Module GroupByTime.

Inductive py_error := ValueError | KeyError.

Inductive outcome (T : Type) := Ok (v : T) | Raise (e : py_error).
Arguments Ok {T} v.
Arguments Raise {T} e.

Inductive time_field := AbsoluteTime | FrameTime.

Record gstate {A : Type} := mk_gstate {
  groups : list (list A);
  current_group : list A;
  current_interval_start : option Z
}.
Arguments gstate : clear implicits.

(** One iteration of the grouping loop over [(item_time, item)]; the
    timedelta comparison [(item_time - current_interval_start).total_seconds()
    <= interval_seconds] is done on microseconds. *)
Definition gstep {A : Type} (interval_seconds : Z) (st : gstate A) (p : Z * A)
  : gstate A :=
  let (item_time, item) := p in
  match current_interval_start st with
  | None => mk_gstate A (groups st) [item] (Some item_time)
  | Some s =>
      if item_time - s <=? interval_seconds * us_per_second
      then mk_gstate A (groups st) (current_group st ++ [item]) (Some s)
      else mk_gstate A (groups st ++ [current_group st]) [item] (Some item_time)
  end.

(** [if current_group: groups.append(current_group)] *)
Definition finish {A : Type} (st : gstate A) : list (list A) :=
  match current_group st with
  | [] => groups st
  | _ => groups st ++ [current_group st]
  end.

Section Group.
(** A result dict: [absolute_time x] (resp. [frame_time x]) is [None] when
    the key is absent; present keys hold datetimes, as microseconds. *)
Context {A : Type} (absolute_time frame_time : A -> option Z).

Definition get (f : time_field) (x : A) : option Z :=
  match f with AbsoluteTime => absolute_time x | FrameTime => frame_time x end.

(** [if 'absolute_time' in results[0]: ... elif 'frame_time' in results[0]: ...] *)
Definition select_field (r0 : A) : option time_field :=
  match absolute_time r0 with
  | Some _ => Some AbsoluteTime
  | None => match frame_time r0 with Some _ => Some FrameTime | None => None end
  end.

(** The keys [x[time_field]] that [sorted] computes for every item first;
    an item without the key raises KeyError. *)
Fixpoint keys (f : time_field) (l : list A) : option (list (Z * A)) :=
  match l with
  | [] => Some []
  | x :: l' =>
      match get f x with
      | None => None
      | Some t => match keys f l' with
                  | None => None
                  | Some ks => Some ((t, x) :: ks)
                  end
      end
  end.

Definition group_results_by_time (results : list A) (interval_seconds : Z)
  : outcome (list (list A)) :=
  match results with
  | [] => Ok []
  | r0 :: _ =>
      match select_field r0 with
      | None => Raise ValueError
      | Some f =>
          match keys f results with
          | None => Raise KeyError
          | Some ks =>
              let sorted_results := stable_sort (fun p q => fst p <? fst q) ks in
              Ok (finish (fold_left (gstep interval_seconds) sorted_results
                                    (mk_gstate A [] [] None)))
          end
      end
  end.
End Group.

(** Shape of the groups, for a time accessor [tm] and a width [w]. *)
Section Shape.
Context {A : Type} (tm : A -> option Z) (w : Z).

Definition in_window (t0 : Z) (x : A) : Prop :=
  exists t, tm x = Some t /\ t0 <= t <= t0 + w.

Definition head_time (g : list A) (t0 : Z) : Prop :=
  exists x0 rest, g = x0 :: rest /\ tm x0 = Some t0.

(** A group starts at its earliest item and spans at most [w]. *)
Definition window_group (g : list A) : Prop :=
  exists t0, head_time g t0 /\ Forall (in_window t0) g.

(** Consecutive groups start more than [w] apart. *)
Definition apart (g h : list A) : Prop :=
  exists t0 t1, head_time g t0 /\ head_time h t1 /\ t0 + w < t1.

Definition time_le (x y : A) : Prop :=
  exists tx ty, tm x = Some tx /\ tm y = Some ty /\ tx <= ty.
End Shape.

End GroupByTime.

Module GroupByTimeFacts.
Import GroupByTime.

Lemma keys_spec : forall {A} (at_ ft : A -> option Z) f l ks,
  keys at_ ft f l = Some ks ->
  map snd ks = l /\ Forall (fun p => get at_ ft f (snd p) = Some (fst p)) ks.
Proof.
  intros A at_ ft f l. induction l as [|x l IH]; intros ks H; simpl in H.
  - inversion H; subst. auto.
  - destruct (get at_ ft f x) eqn:Ex; [|discriminate].
    destruct (keys at_ ft f l) eqn:Ek; [|discriminate].
    inversion H; subst. destruct (IH l0 eq_refl) as [H1 H2].
    simpl. rewrite H1. auto.
Qed.

Lemma keys_none : forall {A} (at_ ft : A -> option Z) f l,
  keys at_ ft f l = None <-> Exists (fun x => get at_ ft f x = None) l.
Proof.
  intros A at_ ft f l. induction l as [|x l IH]; simpl.
  - split; [discriminate | intros H; inversion H].
  - split.
    + intros H. destruct (get at_ ft f x) eqn:Ex; [|left; exact Ex].
      destruct (keys at_ ft f l) eqn:Ek; [discriminate|].
      right. apply IH. reflexivity.
    + intros H. destruct (get at_ ft f x) eqn:Ex; [|reflexivity].
      inversion H as [? ? Hx | ? ? Hl]; subst; [congruence|].
      apply IH in Hl. rewrite Hl. reflexivity.
Qed.

Definition le_fst {B : Type} (p q : Z * B) : Prop := fst p <= fst q.

Lemma ins_sorted_fst : forall {B} (x : Z * B) l,
  Sorted le_fst l -> Sorted le_fst (ins (fun p q => fst p <? fst q) x l).
Proof.
  intros B x l. induction l as [|y l IH]; intros Hs; simpl.
  - repeat constructor.
  - destruct (fst x <? fst y) eqn:E.
    + apply Z.ltb_lt in E. constructor; [exact Hs|]. constructor. unfold le_fst. lia.
    + apply Z.ltb_ge in E. inversion Hs as [|? ? Hs' Hhd]; subst.
      constructor; [apply IH, Hs'|].
      destruct l as [|z l]; simpl.
      * constructor. unfold le_fst. lia.
      * inversion Hhd; subst. unfold le_fst in *. destruct (fst x <? fst z); constructor; unfold le_fst; lia.
Qed.

Lemma stable_sort_sorted_fst : forall {B} (l : list (Z * B)),
  Sorted le_fst (stable_sort (fun p q => fst p <? fst q) l).
Proof.
  intros B l. unfold stable_sort.
  assert (G : forall acc, Sorted le_fst acc ->
            Sorted le_fst (fold_left (fun acc x => ins (fun p q => fst p <? fst q) x acc) l acc)).
  { induction l as [|x l IH]; intros acc Ha; simpl; [exact Ha|].
    apply IH, ins_sorted_fst, Ha. }
  apply G. constructor.
Qed.

Section Inv.
Context {A : Type} (tm : A -> option Z) (n : Z).
Let w := n * us_per_second.

Definition ginv (done : list A) (m : Z) (st : gstate A) : Prop :=
  match current_interval_start st with
  | None => groups st = [] /\ current_group st = [] /\ done = []
  | Some s =>
      head_time tm (current_group st) s /\ s <= m /\
      Forall (window_group tm w) (groups st ++ [current_group st]) /\
      Sorted (apart tm w) (groups st ++ [current_group st]) /\
      concat (groups st ++ [current_group st]) = done
  end.

Lemma head_time_fun : forall g s s', head_time tm g s -> head_time tm g s' -> s = s'.
Proof.
  intros g s s' (x0 & r & -> & H) (x1 & r' & E & H'). inversion E; subst. congruence.
Qed.

Lemma ginv_step : forall done m st t x,
  0 <= n -> ginv done m st -> tm x = Some t -> m <= t ->
  ginv (done ++ [x]) t (gstep n st (t, x)).
Proof.
  intros done m st t x Hn Hi Hx Hm. assert (Hw : 0 <= w) by (unfold w, us_per_second; lia).
  unfold ginv in *. unfold gstep.
  destruct (current_interval_start st) as [s|] eqn:Es; simpl.
  - destruct Hi as (Hh & Hsm & Hf & Hs & Hc).
    destruct (t - s <=? n * us_per_second) eqn:Et; simpl.
    + apply Z.leb_le in Et. fold w in Et.
      apply Forall_app in Hf as [Hg Hcur]. apply Forall_cons_iff in Hcur as [Hcg _].
      destruct Hh as (x0 & r & Ec & Hx0).
      split; [exists x0, (r ++ [x]); rewrite Ec; auto|].
      split; [lia|]. split; [|split].
      * apply Forall_app. split; [exact Hg|]. constructor; [|constructor].
        destruct Hcg as (t0 & Ht0 & Hwin).
        assert (t0 = s) by (eapply head_time_fun; [exact Ht0 | exists x0, r; auto]). subst t0.
        exists s. split; [exists x0, (r ++ [x]); rewrite Ec; auto|].
        apply Forall_app. split; [exact Hwin|]. constructor; [|constructor].
        exists t. split; [exact Hx | lia].
      * eapply Sorted_replace_last; [exact Hs|].
        intros p (t0 & t1 & Hp & Hc' & Hlt). exists t0, t1. split; [exact Hp|]. split; [|exact Hlt].
        destruct Hc' as (y & r' & E' & Hy). exists y, (r' ++ [x]). rewrite E'. auto.
      * rewrite <- Hc, !concat_app. simpl. rewrite !app_nil_r, app_assoc. reflexivity.
    + apply Z.leb_gt in Et. fold w in Et.
      split; [exists x, []; auto|]. split; [lia|]. split; [|split].
      * apply Forall_app. split; [exact Hf|]. constructor; [|constructor].
        exists t. split; [exists x, []; auto|]. constructor; [|constructor].
        exists t. split; [exact Hx | lia].
      * rewrite <- app_assoc. apply Sorted_snoc; [exact Hs|]. exists s, t. split; [exact Hh|].
        split; [exists x, []; auto | lia].
      * rewrite <- Hc, !concat_app. simpl. rewrite !app_nil_r. reflexivity.
  - destruct Hi as (Hg & Hc & Hd). rewrite Hg, Hd. simpl.
    split; [exists x, []; auto|]. split; [lia|]. split; [|split].
    + constructor; [|constructor]. exists t. split; [exists x, []; auto|].
      constructor; [|constructor]. exists t. split; [exact Hx | lia].
    + repeat constructor.
    + reflexivity.
Qed.

Lemma ginv_fold : forall l done m st,
  0 <= n -> ginv done m st ->
  StronglySorted le_fst l -> Forall (fun p => m <= fst p) l ->
  Forall (fun p => tm (snd p) = Some (fst p)) l ->
  exists m', ginv (done ++ map snd l) m' (fold_left (gstep n) l st).
Proof.
  induction l as [|[t x] l IH]; intros done m st Hn Hi Hs Hm Ht; simpl.
  - exists m. rewrite app_nil_r. exact Hi.
  - inversion Hs; inversion Hm; inversion Ht; subst.
    replace (done ++ x :: map snd l) with ((done ++ [x]) ++ map snd l)
      by (rewrite <- app_assoc; reflexivity).
    eapply IH; eauto using ginv_step.
Qed.

Lemma ginv_finish : forall done m st, ginv done m st ->
  concat (finish st) = done /\ Forall (window_group tm w) (finish st) /\
  Sorted (apart tm w) (finish st).
Proof.
  intros done m st Hi. unfold ginv, finish in *.
  destruct (current_interval_start st).
  - destruct Hi as ((x0 & r & Ec & _) & _ & Hf & Hs & Hc). rewrite Ec in *. auto.
  - destruct Hi as (Hg & Hc & Hd). rewrite Hg, Hc, Hd. simpl. auto.
Qed.
End Inv.

(** The successful run, spelled out. *)
Lemma group_ok : forall {A} (at_ ft : A -> option Z) r0 rs n gs,
  group_results_by_time at_ ft (r0 :: rs) n = Ok gs ->
  exists f ks, select_field at_ ft r0 = Some f /\ keys at_ ft f (r0 :: rs) = Some ks /\
    gs = finish (fold_left (gstep n) (stable_sort (fun p q => fst p <? fst q) ks)
                           (mk_gstate A [] [] None)).
Proof.
  intros A at_ ft r0 rs n gs H. unfold group_results_by_time in H.
  destruct (select_field at_ ft r0) as [f|] eqn:Ef; [|discriminate].
  destruct (keys at_ ft f (r0 :: rs)) as [ks|] eqn:Ek; [|discriminate].
  inversion H; subst. exists f, ks. auto.
Qed.

Lemma ginv_start : forall {A} (tm : A -> option Z) n l,
  0 <= n -> StronglySorted le_fst l ->
  Forall (fun p => tm (snd p) = Some (fst p)) l ->
  exists m, ginv tm n (map snd l) m (fold_left (gstep n) l (mk_gstate A [] [] None)).
Proof.
  intros A tm n l Hn Hs Ht. destruct l as [|[t x] l]; simpl.
  - exists 0. unfold ginv. simpl. auto.
  - inversion Hs as [|? ? Hs' Hhd]; inversion Ht as [|? ? Htx Ht']; subst.
    assert (H1 : ginv tm n ([] ++ [x]) t (gstep n (mk_gstate A [] [] None) (t, x))).
    { apply (ginv_step tm n [] t); auto; [unfold ginv; simpl; auto | lia]. }
    destruct (ginv_fold tm n l _ t _ Hn H1 Hs' Hhd Ht') as [m' Hm'].
    exists m'. exact Hm'.
Qed.

Lemma sorted_map_snd : forall {A} (tm : A -> option Z) l,
  Sorted le_fst l -> Forall (fun p => tm (snd p) = Some (fst p)) l ->
  Sorted (time_le tm) (map snd l).
Proof.
  intros A tm l Hs Ht. induction Hs as [|p l Hs IH Hhd]; simpl; constructor.
  - inversion Ht; auto.
  - inversion Hhd as [|q l' Hpq]; subst; simpl; constructor.
    inversion Ht as [|? ? Hp Ht']; inversion Ht'; subst.
    exists (fst p), (fst q). auto.
Qed.

Lemma group_shape : forall {A} (at_ ft : A -> option Z) r0 rs n gs,
  0 <= n ->
  group_results_by_time at_ ft (r0 :: rs) n = Ok gs ->
  exists f, select_field at_ ft r0 = Some f /\
    Permutation (r0 :: rs) (concat gs) /\
    Sorted (time_le (get at_ ft f)) (concat gs) /\
    Forall (window_group (get at_ ft f) (n * us_per_second)) gs /\
    Sorted (apart (get at_ ft f) (n * us_per_second)) gs.
Proof.
  intros A at_ ft r0 rs n gs Hn H.
  destruct (group_ok at_ ft r0 rs n gs H) as (f & ks & Hf & Hk & ->).
  exists f. split; [exact Hf|].
  destruct (keys_spec at_ ft f _ ks Hk) as [Hm Ht].
  set (sk := stable_sort (fun p q => fst p <? fst q) ks).
  assert (Hsk : Sorted le_fst sk) by apply stable_sort_sorted_fst.
  assert (Htk : Forall (fun p => get at_ ft f (snd p) = Some (fst p)) sk)
    by (apply Sessions.stable_sort_forall, Ht).
  assert (Hss : StronglySorted le_fst sk).
  { apply Sorted_StronglySorted; [|exact Hsk]. intros p q r; unfold le_fst; lia. }
  destruct (ginv_start (get at_ ft f) n sk Hn Hss Htk) as [m Hi].
  destruct (ginv_finish _ _ _ _ _ Hi) as (Hc & Hw & Ha).
  rewrite Hc. split; [|split; [|split]]; auto.
  - rewrite <- Hm. apply Permutation_map, stable_sort_perm.
  - apply sorted_map_snd; auto.
Qed.

Section Cover.
Context {A : Type}.

Definition cinv (done : list A) (st : gstate A) : Prop :=
  match current_interval_start st with
  | None => groups st = [] /\ current_group st = [] /\ done = []
  | Some _ => current_group st <> [] /\ Forall (fun g => g <> []) (groups st) /\
              concat (groups st ++ [current_group st]) = done
  end.

Lemma cinv_step : forall n done st p,
  cinv done st -> cinv (done ++ [snd p]) (gstep n st p).
Proof.
  intros n done st [t x] Hi. unfold cinv, gstep in *.
  destruct (current_interval_start st) as [s|]; simpl.
  - destruct Hi as (Hc & Hg & Hd).
    destruct (t - s <=? n * us_per_second); simpl.
    + split; [destruct (current_group st); discriminate|]. split; [exact Hg|].
      rewrite <- Hd, !concat_app. simpl. rewrite !app_nil_r, app_assoc. reflexivity.
    + split; [discriminate|]. split.
      * apply Forall_app. split; [exact Hg | constructor; auto].
      * rewrite <- Hd, !concat_app. simpl. rewrite !app_nil_r. reflexivity.
  - destruct Hi as (Hg & Hc & Hd). rewrite Hg, Hd. simpl. split; [discriminate|auto].
Qed.

Lemma cinv_fold : forall n l done st,
  cinv done st -> cinv (done ++ map snd l) (fold_left (gstep n) l st).
Proof.
  intros n l. induction l as [|p l IH]; intros done st Hi; simpl.
  - rewrite app_nil_r. exact Hi.
  - replace (done ++ snd p :: map snd l) with ((done ++ [snd p]) ++ map snd l)
      by (rewrite <- app_assoc; reflexivity).
    apply IH, cinv_step, Hi.
Qed.

Lemma cinv_finish : forall done st, cinv done st ->
  concat (finish st) = done /\ Forall (fun g => g <> []) (finish st).
Proof.
  intros done st Hi. unfold cinv, finish in *.
  destruct (current_interval_start st).
  - destruct Hi as (Hc & Hg & Hd).
    destruct (current_group st) as [|x r] eqn:E; [congruence|].
    split; [exact Hd|]. apply Forall_app. split; [exact Hg | constructor; auto].
  - destruct Hi as (Hg & Hc & Hd). rewrite Hc, Hg, Hd. auto.
Qed.
End Cover.

End GroupByTimeFacts.

(** X1: [group_results_by_time] of no results is [[]]; when the first
    result has neither an [absolute_time] nor a [frame_time] key it raises
    ValueError, whatever the other results hold. *)
Theorem group_results_by_time_no_field :
  forall {A} (absolute_time frame_time : A -> option Z) r0 rs n,
  absolute_time r0 = None -> frame_time r0 = None ->
  GroupByTime.group_results_by_time absolute_time frame_time [] n = GroupByTime.Ok [] /\
  GroupByTime.group_results_by_time absolute_time frame_time (r0 :: rs) n
    = GroupByTime.Raise GroupByTime.ValueError.
Proof.
  intros A at_ ft r0 rs n Ha Hf. split; [reflexivity|].
  unfold GroupByTime.group_results_by_time, GroupByTime.select_field.
  rewrite Ha, Hf. reflexivity.
Qed.

(** X2: the time field is chosen from the first result only
    ([absolute_time] if it has one, else [frame_time]); the call raises
    KeyError exactly when some later result lacks that field. *)
Theorem group_results_by_time_key_error :
  forall {A} (absolute_time frame_time : A -> option Z) f r0 rs n,
  GroupByTime.select_field absolute_time frame_time r0 = Some f ->
  (GroupByTime.group_results_by_time absolute_time frame_time (r0 :: rs) n
     = GroupByTime.Raise GroupByTime.KeyError <->
   Exists (fun x => GroupByTime.get absolute_time frame_time f x = None) rs).
Proof.
  intros A at_ ft f r0 rs n Hf.
  assert (Hr0 : GroupByTime.get at_ ft f r0 <> None).
  { unfold GroupByTime.select_field, GroupByTime.get in *.
    destruct (at_ r0); [inversion Hf; discriminate|].
    destruct (ft r0); [inversion Hf; discriminate | discriminate]. }
  unfold GroupByTime.group_results_by_time. rewrite Hf.
  split.
  - intros H. destruct (GroupByTime.keys at_ ft f (r0 :: rs)) eqn:Ek; [discriminate|].
    apply GroupByTimeFacts.keys_none in Ek. inversion Ek; subst; [contradiction | assumption].
  - intros H. assert (Ek : GroupByTime.keys at_ ft f (r0 :: rs) = None)
      by (apply GroupByTimeFacts.keys_none; right; exact H).
    rewrite Ek. reflexivity.
Qed.

(** X3: a successful grouping loses and duplicates no result: the groups,
    concatenated, are a permutation of the input in ascending time order,
    and no group is empty. *)
Theorem group_results_by_time_partition :
  forall {A} (absolute_time frame_time : A -> option Z) r0 rs n gs,
  GroupByTime.group_results_by_time absolute_time frame_time (r0 :: rs) n = GroupByTime.Ok gs ->
  exists f, GroupByTime.select_field absolute_time frame_time r0 = Some f /\
    Permutation (r0 :: rs) (concat gs) /\
    Sorted (GroupByTime.time_le (GroupByTime.get absolute_time frame_time f)) (concat gs) /\
    Forall (fun g => g <> []) gs.
Proof.
  intros A at_ ft r0 rs n gs H.
  destruct (GroupByTimeFacts.group_ok at_ ft r0 rs n gs H) as (f & ks & Hf & Hk & ->).
  exists f. split; [exact Hf|].
  destruct (GroupByTimeFacts.keys_spec at_ ft f _ ks Hk) as [Hm Ht].
  destruct (GroupByTimeFacts.cinv_finish _ _
              (GroupByTimeFacts.cinv_fold n (stable_sort (fun p q => fst p <? fst q) ks) []
                 (GroupByTime.mk_gstate A [] [] None) (conj eq_refl (conj eq_refl eq_refl))))
    as [Hc Hne].
  simpl in Hc. rewrite Hc. split; [|split; [|exact Hne]].
  - rewrite <- Hm. apply Permutation_map, stable_sort_perm.
  - apply GroupByTimeFacts.sorted_map_snd.
    + apply GroupByTimeFacts.stable_sort_sorted_fst.
    + apply Sessions.stable_sort_forall, Ht.
Qed.

(** X4: for [interval_seconds >= 0], every group spans at most
    [interval_seconds] from its first (earliest) result, and the first
    results of consecutive groups are more than [interval_seconds] apart. *)
Theorem group_results_by_time_windows :
  forall {A} (absolute_time frame_time : A -> option Z) r0 rs n gs,
  0 <= n ->
  GroupByTime.group_results_by_time absolute_time frame_time (r0 :: rs) n = GroupByTime.Ok gs ->
  exists f, GroupByTime.select_field absolute_time frame_time r0 = Some f /\
    Forall (GroupByTime.window_group (GroupByTime.get absolute_time frame_time f)
              (n * us_per_second)) gs /\
    Sorted (GroupByTime.apart (GroupByTime.get absolute_time frame_time f)
              (n * us_per_second)) gs.
Proof.
  intros A at_ ft r0 rs n gs Hn H.
  destruct (GroupByTimeFacts.group_shape at_ ft r0 rs n gs Hn H) as (f & Hf & _ & _ & Hw & Ha).
  exists f. auto.
Qed.

(** ** [RewindDB._get_app_usage_stats] *)

Module AppUsageStats.

(** A fetched segment row: [bundleID] and, in microseconds, the
    [(end_time - start_time).total_seconds()] of its parsed timestamps, or
    [None] when parsing raised (the row then counts [duration = 0]). *)
Record seg_row := mk_seg_row {
  bundleID : option string;
  parsed_duration : option Z
}.

Definition audiorecorder : string := "ai.rewind.audiorecorder".

(** [app = row[3]; if app is None: app = "Unknown"] *)
Definition row_app (r : seg_row) : string :=
  match bundleID r with None => "Unknown" | Some a => a end.

(** One iteration of the row loop. *)
Definition row_step (app_usage : list (string * Z)) (r : seg_row) : list (string * Z) :=
  let app := row_app r in
  if String.eqb app audiorecorder then app_usage
  else
    let duration := match parsed_duration r with Some d => d | None => 0 end in
    dict_add String.eqb app duration app_usage.

Record top_app := mk_top_app { app : string; app_hours : Q; percentage : Q }.

Record stats := mk_stats {
  top_apps : list top_app;
  total_apps : nat;
  total_segments : Z;
  total_hours : Q
}.

(** The segment count query: the relative branch passes [week_ago_ts] and
    [now_ts], names bound nowhere in the method, so it raises NameError
    ([None]) before reaching the database; otherwise the count of all
    segments gives [segment_count] ([None] if it raised). *)
Definition count_segments (is_relative : bool) (segment_count : option Z) : option Z :=
  if is_relative then None else segment_count.

(** [rows] is [None] when the segment query raised ([app_usage = {}]). *)
Definition app_usage_stats (rows : option (list seg_row)) (is_relative : bool)
  (segment_count : option Z) : stats :=
  let app_usage := match rows with
                   | Some rs => fold_left row_step rs []
                   | None => []
                   end in
  let sorted_apps := AppUsage.sort_desc snd app_usage in
  let total_duration := match app_usage with
                        | [] => us_per_second
                        | _ => sum_values app_usage
                        end in
  mk_stats
    (map (fun ad => mk_top_app (fst ad) (hours_of_us (snd ad))
                               (AppUsage.pct (snd ad) total_duration))
         (firstn 10 sorted_apps))
    (List.length app_usage)
    (match count_segments is_relative segment_count with Some n => n | None => 0 end)
    (hours_of_us (sum_values app_usage)).

(** What a row adds to the totals. *)
Definition kept_duration (r : seg_row) : Z :=
  if String.eqb (row_app r) audiorecorder then 0
  else match parsed_duration r with Some d => d | None => 0 end.

End AppUsageStats.

(** ** [RewindDB.get_statistics] *)

Module Statistics.

Record db_stats := mk_db_stats {
  table_stats : list (string * Z);
  db_size_mb : Q;
  table_count : Z
}.

(** [any([days, hours, minutes, seconds])] *)
Definition any_nonzero (days hours minutes seconds : Z) : bool :=
  negb (days =? 0) || negb (hours =? 0) || negb (minutes =? 0) || negb (seconds =? 0).

Section GetStatistics.
(** The collectors the method calls: the audio and screen statistics
    ([now, hour_ago, day_ago, week_ago, month_ago, is_relative]), the rows
    and the count that [_get_app_usage_stats] fetches for [week_ago .. now],
    and [_get_database_stats()]. *)
Context {Audio Screen : Type}
  (get_audio_stats : Z -> Z -> Z -> Z -> Z -> bool -> Audio)
  (get_screen_stats : Z -> Z -> Z -> Z -> Z -> bool -> Screen)
  (fetch_rows : Z -> Z -> option (list AppUsageStats.seg_row))
  (segment_count : option Z)
  (get_database_stats : db_stats).

Record statistics := mk_statistics {
  audio : Audio;
  screen : Screen;
  app_usage : AppUsageStats.stats;
  database : db_stats
}.

Definition get_statistics (now days hours minutes seconds : Z) : statistics :=
  let is_relative := any_nonzero days hours minutes seconds in
  let '(hour_ago, day_ago, week_ago, month_ago) :=
    if is_relative then
      let start_time := now - timedelta days hours minutes seconds in
      (start_time, start_time, start_time, start_time)
    else
      (now - timedelta 0 1 0 0, now - timedelta 1 0 0 0,
       now - timedelta 7 0 0 0, now - timedelta 30 0 0 0) in
  mk_statistics
    (get_audio_stats now hour_ago day_ago week_ago month_ago is_relative)
    (get_screen_stats now hour_ago day_ago week_ago month_ago is_relative)
    (AppUsageStats.app_usage_stats (fetch_rows week_ago now) is_relative segment_count)
    (if is_relative then mk_db_stats [] 0 0 else get_database_stats).
End GetStatistics.

End Statistics.
Section DictKeys.
Context {K V : Type} (eqb : K -> K -> bool) (eqb_spec : forall a b, reflect (a = b) (eqb a b)).

Lemma dict_upd_keys_in : forall k (dflt : V) f d a,
  In a (map fst (dict_upd eqb k dflt f d)) <-> a = k \/ In a (map fst d).
Proof.
  intros k dflt f d a. induction d as [|[k' v] d IH]; simpl.
  - split; intros H; repeat destruct H as [H|H]; subst; auto.
  - destruct (eqb_spec k k') as [->|Hne]; simpl.
    + split; intros H; repeat destruct H as [H|H]; subst; auto.
    + rewrite IH. tauto.
Qed.

Lemma dict_upd_nodup : forall k (dflt : V) f d,
  NoDup (map fst d) -> NoDup (map fst (dict_upd eqb k dflt f d)).
Proof.
  intros k dflt f d. induction d as [|[k' v] d IH]; simpl; intros Hd.
  - repeat constructor. simpl; tauto.
  - inversion Hd as [|? ? Hn Hd']; subst.
    destruct (eqb_spec k k') as [->|Hne]; simpl; constructor; auto.
    intros Hin. apply Hn.
    apply dict_upd_keys_in in Hin as [->|]; [contradiction Hne; reflexivity | assumption].
Qed.

Lemma dict_upd_in : forall k (dflt : V) f d k' v',
  NoDup (map fst d) -> In (k', v') (dict_upd eqb k dflt f d) ->
  (k' = k /\ ((exists v0, In (k, v0) d /\ v' = f v0) \/
               (~ In k (map fst d) /\ v' = f dflt))) \/
  (k' <> k /\ In (k', v') d).
Proof.
  intros k dflt f d k' v'. induction d as [|[k0 v] d IH]; simpl; intros Hd Hin.
  - destruct Hin as [E|[]]. inversion E; subst. left. split; [reflexivity|]. right. auto.
  - inversion Hd as [|? ? Hn Hd']; subst.
    destruct (eqb_spec k k0) as [->|Hne]; simpl in Hin.
    + destruct Hin as [E|Hin].
      * inversion E; subst. left. split; [reflexivity|]. left. exists v. auto.
      * right. split; [|auto]. intros ->. apply Hn. apply (in_map fst) in Hin. exact Hin.
    + destruct Hin as [E|Hin].
      * inversion E; subst. right. auto.
      * destruct (IH Hd' Hin) as [(-> & [(v0 & H0 & ->)|(Hni & ->)])|(Hk & H)].
        -- left. split; [reflexivity|]. left. exists v0. auto.
        -- left. split; [reflexivity|]. right. split; [|reflexivity].
           intros [E|E]; [congruence | contradiction].
        -- right. auto.
Qed.
End DictKeys.


Module AppUsageStatsFacts.
Import AppUsageStats.

Lemma row_fold_keys : forall rs d,
  NoDup (map fst d) ->
  NoDup (map fst (fold_left row_step rs d)) /\
  (forall a, In a (map fst (fold_left row_step rs d)) <->
     In a (map fst d) \/ (a <> audiorecorder /\ exists r, In r rs /\ row_app r = a)).
Proof.
  induction rs as [|r rs IH]; intros d Hd; simpl.
  - split; [exact Hd|]. intros a. split; [tauto|]. intros [H|(_ & r & [] & _)]. exact H.
  - assert (Hd' : NoDup (map fst (row_step d r))).
    { unfold row_step, dict_add. destruct (String.eqb (row_app r) audiorecorder);
      [exact Hd | apply (dict_upd_nodup String.eqb String.eqb_spec), Hd]. }
    destruct (IH (row_step d r) Hd') as [Hn Hi]. split; [exact Hn|].
    intros a. rewrite Hi. unfold row_step.
    destruct (String.eqb_spec (row_app r) audiorecorder) as [Ea|Ea].
    + split.
      * intros [H|(Hna & r' & Hr' & Ha)]; [left; exact H|].
        right. split; [exact Hna|]. exists r'. auto.
      * intros [H|(Hna & r' & [<-|Hr'] & Ha)]; [left; exact H| |].
        -- subst a. contradiction.
        -- right. split; [exact Hna|]. exists r'. auto.
    + unfold dict_add. rewrite (dict_upd_keys_in String.eqb String.eqb_spec). split.
      * intros [[->|H]|(Hna & r' & Hr' & Ha)].
        -- right. split; [exact Ea|]. exists r. auto.
        -- left. exact H.
        -- right. split; [exact Hna|]. exists r'. auto.
      * intros [H|(Hna & r' & [<-|Hr'] & Ha)].
        -- left. right. exact H.
        -- left. left. symmetry. exact Ha.
        -- right. split; [exact Hna|]. exists r'. auto.
Qed.

Lemma row_fold_sum : forall rs d,
  sum_values (fold_left row_step rs d) = sum_values d + sum_list (map kept_duration rs).
Proof.
  induction rs as [|r rs IH]; intros d; simpl.
  - lia.
  - rewrite IH. unfold row_step, kept_duration.
    destruct (String.eqb (row_app r) audiorecorder); [lia|].
    rewrite dict_add_sum. lia.
Qed.

End AppUsageStatsFacts.




(** ** [utils.format_transcript] and [utils.format_ocr_data] *)

Module FormatData.

(** [sep.join(l)] *)
Fixpoint join (sep : string) (l : list string) : string :=
  match l with
  | [] => ""
  | [x] => x
  | x :: l' => (x ++ sep ++ join sep l')%string
  end.

Definition newline : string := String (Ascii.ascii_of_nat 10) EmptyString.

(** A transcript word as [search] returns it (times in microseconds). *)
Record transcript_item := mk_transcript_item {
  audio_id : Z;
  audio_start_time : Z;
  word : string;
  time_offset : Z
}.

Record session := mk_session { session_start_time : Z; words : list transcript_item }.

(** [if audio_id not in sessions: sessions[audio_id] = {...}] followed by
    [sessions[audio_id]['words'].append(item)] *)
Definition add_word (sessions : list (Z * session)) (item : transcript_item)
  : list (Z * session) :=
  dict_upd Z.eqb (audio_id item) (mk_session (audio_start_time item) [])
    (fun s => mk_session (session_start_time s) (words s ++ [item])) sessions.

(** The [sessions] dict built by the first loop. *)
Definition group_sessions (transcript_data : list transcript_item) : list (Z * session) :=
  fold_left add_word transcript_data [].

(** [strftime] stands for [dt.strftime('%Y-%m-%d %H:%M:%S')]. *)
Definition format_transcript (strftime : Z -> string)
  (transcript_data : list transcript_item) : string :=
  match transcript_data with
  | [] => "no transcript data available."
  | _ =>
      let sessions := group_sessions transcript_data in
      let result :=
        flat_map (fun kv =>
          let session := snd kv in
          [("transcript from " ++ strftime (session_start_time session) ++ ":")%string;
           join " " (map word (stable_sort (fun x y => time_offset x <? time_offset y)
                                          (words session)));
           ""]) sessions in
      join newline result
  end.

(** An OCR item ([frame_id], [frame_time], [application], [window],
    [text_offset], [text_length]). *)
Record ocr_item := mk_ocr_item {
  frame_id : Z;
  frame_time : Z;
  application : option string;
  window : option string;
  text_offset : option Z;
  text_length : option Z
}.

Record frame := mk_frame {
  time : Z;
  f_application : option string;
  f_window : option string;
  nodes : list (option Z * option Z)
}.

Definition add_node (frames : list (Z * frame)) (item : ocr_item) : list (Z * frame) :=
  dict_upd Z.eqb (frame_id item)
    (mk_frame (frame_time item) (application item) (window item) [])
    (fun f => mk_frame (time f) (f_application f) (f_window f)
                       (nodes f ++ [(text_offset item, text_length item)]))
    frames.

(** The [frames] dict built by the first loop. *)
Definition group_frames (ocr_data : list ocr_item) : list (Z * frame) :=
  fold_left add_node ocr_data [].

(** f-string rendering of [None] and of a string. *)
Definition py_str (o : option string) : string :=
  match o with None => "None" | Some s => s end.

Fixpoint z_digits (fuel : nat) (n : Z) (acc : string) : string :=
  match fuel with
  | O => acc
  | S fuel' =>
      let acc' := String (Ascii.ascii_of_nat (48 + Z.to_nat (n mod 10))) acc in
      if n <? 10 then acc' else z_digits fuel' (n / 10) acc'
  end.

(** [str(n)] of an int *)
Definition z_str (n : Z) : string :=
  if n <? 0 then ("-" ++ z_digits (Z.to_nat (Z.log2 (- n)) + 1) (- n) "")%string
  else z_digits (Z.to_nat (Z.log2 n) + 1) n "".

(** f-string rendering of an int column that may be NULL *)
Definition py_int_str (o : option Z) : string :=
  match o with None => "None" | Some n => z_str n end.

Definition format_ocr_data (strftime : Z -> string) (ocr_data : list ocr_item) : string :=
  match ocr_data with
  | [] => "no ocr data available."
  | _ =>
      let frames := group_frames ocr_data in
      let result :=
        flat_map (fun kv =>
          let fr := snd kv in
          let app_str := (py_str (f_application fr) ++ " - " ++ py_str (f_window fr))%string in
          [("[" ++ strftime (time fr) ++ "] " ++ app_str)%string]
          ++ map (fun nd => ("  Text offset: " ++ py_int_str (fst nd) ++ ", length: "
                             ++ py_int_str (snd nd))%string)
                 (nodes fr)
          ++ [""]) frames in
      join newline result
  end.

End FormatData.

Module GroupByKey.

Lemma find_app : forall {T} (p : T -> bool) l1 l2,
  find p (l1 ++ l2) = match find p l1 with Some y => Some y | None => find p l2 end.
Proof.
  intros T p l1 l2. induction l1 as [|x l1 IH]; simpl; [reflexivity|].
  destruct (p x); [reflexivity | exact IH].
Qed.

Lemma find_absent : forall {T} (key : T -> Z) k l,
  ~ In k (map key l) ->
  find (fun x => key x =? k) l = None /\ filter (fun x => key x =? k) l = [].
Proof.
  intros T key k l H. induction l as [|x l IH]; simpl in *; [auto|].
  destruct (Z.eqb_spec (key x) k) as [E|E]; [tauto|]. apply IH. tauto.
Qed.

Section GroupBy.
Context {T G : Type} (key : T -> Z) (new : T -> G) (push : G -> T -> G).

Definition gb_step (d : list (Z * G)) (x : T) : list (Z * G) :=
  dict_upd Z.eqb (key x) (new x) (fun g => push g x) d.

Definition gb_inv (pre : list T) (d : list (Z * G)) : Prop :=
  NoDup (map fst d) /\
  (forall k, In k (map fst d) <-> In k (map key pre)) /\
  (forall k g, In (k, g) d -> exists x0, find (fun x => key x =? k) pre = Some x0 /\
       g = fold_left push (filter (fun x => key x =? k) pre) (new x0)).

Lemma gb_inv_step : forall pre d x, gb_inv pre d -> gb_inv (pre ++ [x]) (gb_step d x).
Proof.
  intros pre d x (Hn & Hk & Hg). unfold gb_step. split; [|split].
  - apply (dict_upd_nodup Z.eqb Z.eqb_spec), Hn.
  - intros a. rewrite (dict_upd_keys_in Z.eqb Z.eqb_spec), Hk, map_app, in_app_iff.
    simpl. split; intros [H|H].
    + right. left. symmetry. exact H.
    + left. exact H.
    + right. exact H.
    + destruct H as [H|[]]. left. symmetry. exact H.
  - intros k g Hin.
    rewrite filter_app, find_app. simpl.
    destruct (dict_upd_in Z.eqb Z.eqb_spec _ _ _ _ _ _ Hn Hin)
      as [(-> & [(g0 & H0 & ->)|(Hni & ->)])|(Hne & H)].
    + destruct (Hg _ _ H0) as (x0 & Hf & ->). exists x0. rewrite Hf, Z.eqb_refl.
      split; [reflexivity|]. rewrite fold_left_app. reflexivity.
    + rewrite Hk in Hni. destruct (find_absent key (key x) pre Hni) as [Hf Hl].
      rewrite Hf, Hl, Z.eqb_refl. exists x. auto.
    + destruct (Hg _ _ H) as (x0 & Hf & ->). exists x0. rewrite Hf.
      destruct (Z.eqb_spec (key x) k) as [E|E]; [congruence|].
      rewrite app_nil_r. auto.
Qed.

Lemma gb_inv_fold : forall l pre d,
  gb_inv pre d -> gb_inv (pre ++ l) (fold_left gb_step l d).
Proof.
  induction l as [|x l IH]; intros pre d Hi; simpl.
  - rewrite app_nil_r. exact Hi.
  - replace (pre ++ x :: l) with ((pre ++ [x]) ++ l) by (rewrite <- app_assoc; reflexivity).
    apply IH, gb_inv_step, Hi.
Qed.

Lemma gb_groups : forall l, gb_inv l (fold_left gb_step l []).
Proof.
  intros l. apply (gb_inv_fold l []). split; [constructor|]. split.
  - simpl. tauto.
  - intros k g [].
Qed.
End GroupBy.

End GroupByKey.

(** X8: the sessions of [format_transcript] are keyed by the distinct
    audio ids of the input, each once; a session holds exactly the items
    of its audio id, in input order, and the start time of the first of
    them. *)
Theorem format_transcript_sessions :
  forall transcript_data,
  let sessions := FormatData.group_sessions transcript_data in
  NoDup (map fst sessions) /\
  (forall k, In k (map fst sessions) <-> In k (map FormatData.audio_id transcript_data)) /\
  (forall k s, In (k, s) sessions ->
     FormatData.words s = filter (fun x => FormatData.audio_id x =? k) transcript_data /\
     exists x0, find (fun x => FormatData.audio_id x =? k) transcript_data = Some x0 /\
       FormatData.session_start_time s = FormatData.audio_start_time x0).
Proof.
  intros data sessions.
  assert (Hpush : forall l t ws,
    fold_left (fun s x => FormatData.mk_session (FormatData.session_start_time s)
                                                (FormatData.words s ++ [x])) l
              (FormatData.mk_session t ws) = FormatData.mk_session t (ws ++ l)).
  { induction l as [|x l IH]; intros t ws; simpl; [rewrite app_nil_r; reflexivity|].
    rewrite IH, <- app_assoc. reflexivity. }
  destruct (GroupByKey.gb_groups FormatData.audio_id
              (fun item => FormatData.mk_session (FormatData.audio_start_time item) [])
              (fun s x => FormatData.mk_session (FormatData.session_start_time s)
                                                (FormatData.words s ++ [x])) data)
    as (Hn & Hk & Hg).
  split; [exact Hn|]. split; [exact Hk|].
  intros k s Hin. destruct (Hg k s Hin) as (x0 & Hf & ->).
  rewrite Hpush. simpl. split; [reflexivity|]. exists x0. auto.
Qed.

(** X9: the frames of [format_ocr_data] are keyed by the distinct frame
    ids of the input, each once; a frame lists the (text_offset,
    text_length) of exactly the items of its id, in input order, and takes
    its time, application and window from the first of them. *)
Theorem format_ocr_data_frames :
  forall ocr_data,
  let frames := FormatData.group_frames ocr_data in
  NoDup (map fst frames) /\
  (forall k, In k (map fst frames) <-> In k (map FormatData.frame_id ocr_data)) /\
  (forall k fr, In (k, fr) frames ->
     FormatData.nodes fr = map (fun x => (FormatData.text_offset x, FormatData.text_length x))
                             (filter (fun x => FormatData.frame_id x =? k) ocr_data) /\
     exists x0, find (fun x => FormatData.frame_id x =? k) ocr_data = Some x0 /\
       FormatData.time fr = FormatData.frame_time x0 /\
       FormatData.f_application fr = FormatData.application x0 /\
       FormatData.f_window fr = FormatData.window x0).
Proof.
  intros data frames.
  set (push := fun f (x : FormatData.ocr_item) =>
         FormatData.mk_frame (FormatData.time f) (FormatData.f_application f) (FormatData.f_window f)
           (FormatData.nodes f ++ [(FormatData.text_offset x, FormatData.text_length x)])).
  assert (Hpush : forall l t a w ns,
    fold_left push l (FormatData.mk_frame t a w ns)
    = FormatData.mk_frame t a w (ns ++ map (fun x => (FormatData.text_offset x, FormatData.text_length x)) l)).
  { induction l as [|x l IH]; intros t a w ns; simpl; [rewrite app_nil_r; reflexivity|].
    unfold push at 2. simpl. rewrite IH, <- app_assoc. reflexivity. }
  destruct (GroupByKey.gb_groups FormatData.frame_id
              (fun item => FormatData.mk_frame (FormatData.frame_time item)
                             (FormatData.application item) (FormatData.window item) [])
              push data)
    as (Hn & Hk & Hg).
  split; [exact Hn|]. split; [exact Hk|].
  intros k fr Hin. destruct (Hg k fr Hin) as (x0 & Hf & ->).
  rewrite Hpush. simpl. split; [reflexivity|]. exists x0. auto.
Qed.

(** ** Row selection of [get_segments] and [get_events] *)

Module RangeQuery.

(** [x BETWEEN a AND b] *)
Definition between (x a b : Z) : bool := (a <=? x) && (x <=? b).

(** [(startDate BETWEEN ? AND ?) OR (endDate BETWEEN ? AND ?) OR
     (startDate <= ? AND endDate >= ?)] with the millisecond bounds
    [start_timestamp, end_timestamp]. *)
Definition row_selected (start_timestamp end_timestamp startDate endDate : Z) : bool :=
  between startDate start_timestamp end_timestamp
  || between endDate start_timestamp end_timestamp
  || ((startDate <=? start_timestamp) && (endDate >=? end_timestamp)).

End RangeQuery.

(** ** Audio part of [RewindDB.search] *)

Module SearchAudio.

(** A row of the context query ([tw.id], [tw.word], [tw.timeOffset],
    [tw.duration]). *)
Record transcript_word := mk_transcript_word {
  word_id : Z;
  word : string;
  time_offset : Z;
  duration : Z
}.

(** A row of the match query. *)
Record audio_match := mk_audio_match {
  m_audio_id : Z;
  m_start_time : Z;
  m_audio_duration : Z;
  m_segment_id : Z;
  m_word_id : Z;
  m_word : string;
  m_time_offset : Z;
  m_duration : Z
}.

Record audio_result := mk_audio_result {
  r_audio_id : Z;
  r_audio_start_time : Z;
  r_audio_duration : Z;
  r_word_id : Z;
  r_word : string;
  r_time_offset : Z;
  r_duration : Z;
  absolute_time : Z;
  is_match : bool
}.

(** [[word for word in all_words if context_before <= word[2] <= context_after]] *)
Definition context_words (match_time_offset : Z) (all_words : list transcript_word)
  : list transcript_word :=
  let context_before := match_time_offset - 60000 in
  let context_after := match_time_offset + 60000 in
  filter (fun w => (context_before <=? time_offset w) && (time_offset w <=? context_after))
    all_words.

(** The results of one match whose [startTime] is an integer (milliseconds):
    [absolute_time = _ms_to_datetime(start_time_val + time_offset)], kept in
    milliseconds, as is the start time. *)
Definition match_results (m : audio_match) (all_words : list transcript_word)
  : list audio_result :=
  map (fun w => mk_audio_result (m_audio_id m) (m_start_time m) (m_audio_duration m)
                  (word_id w) (word w) (time_offset w) (duration w)
                  (m_start_time m + time_offset w) (word_id w =? m_word_id m))
      (context_words (m_time_offset m) all_words).

(** The loop over the matches; [segment_words s] is the context query's
    answer, all words of segment [s] ordered by time offset. *)
Definition audio_results (segment_words : Z -> list transcript_word)
  (audio_matches : list audio_match) : list audio_result :=
  flat_map (fun m => match_results m (segment_words (m_segment_id m))) audio_matches.

End SearchAudio.

Module SearchAudioFacts.
Import SearchAudio.

Lemma flagged_ids : forall m l,
  map r_word_id (filter is_match (match_results m l))
  = map word_id (filter (fun w => ((m_time_offset m - 60000 <=? time_offset w) &&
                                   (time_offset w <=? m_time_offset m + 60000)) &&
                                  (word_id w =? m_word_id m)) l).
Proof.
  intros m l. unfold match_results, context_words.
  induction l as [|w l IH]; simpl; [reflexivity|].
  destruct ((m_time_offset m - 60000 <=? time_offset w) &&
            (time_offset w <=? m_time_offset m + 60000)); simpl;
    [destruct (word_id w =? m_word_id m); simpl|]; first [exact IH | f_equal; exact IH].
Qed.

Lemma unique_id : forall (P : transcript_word -> bool) k l,
  NoDup (map word_id l) -> (exists w, In w l /\ word_id w = k /\ P w = true) ->
  map word_id (filter (fun w => P w && (word_id w =? k)) l) = [k].
Proof.
  intros P k l. induction l as [|w l IH]; intros Hn (v & Hv & Hk & Hp); simpl in *; [contradiction|].
  inversion Hn as [|? ? Hni Hn']; subst.
  destruct Hv as [->|Hv].
  - rewrite Hp, Z.eqb_refl. simpl. f_equal.
    assert (G : forall l', ~ In (word_id v) (map word_id l') ->
              map word_id (filter (fun w => P w && (word_id w =? word_id v)) l') = []).
    { induction l' as [|u l' IH']; intros H; simpl in *; [reflexivity|].
      destruct (Z.eqb_spec (word_id u) (word_id v)) as [E|E]; [tauto|].
      rewrite andb_false_r. apply IH'. tauto. }
    apply G, Hni.
  - destruct (Z.eqb_spec (word_id w) (word_id v)) as [E|E].
    + exfalso. apply Hni. rewrite E. apply in_map, Hv.
    + rewrite andb_false_r. apply IH; [exact Hn'|]. exists v. auto.
Qed.

End SearchAudioFacts.

(** X10: for a well-formed row ([startDate <= endDate]) and bounds
    [start <= end], the three-way WHERE clause of [get_segments] and
    [get_events] selects exactly the rows whose interval meets
    [start .. end]. *)
Theorem row_selected_iff_overlap :
  forall start_timestamp end_timestamp startDate endDate,
  start_timestamp <= end_timestamp -> startDate <= endDate ->
  (RangeQuery.row_selected start_timestamp end_timestamp startDate endDate = true <->
   startDate <= end_timestamp /\ start_timestamp <= endDate).
Proof.
  intros a b s e Hab Hse. unfold RangeQuery.row_selected, RangeQuery.between.
  rewrite !orb_true_iff, !andb_true_iff, !Z.leb_le, Z.geb_le. lia.
Qed.

(** X11: in the audio results of one match, when the match word is one of
    its segment's words and word ids are unique, exactly one result is
    marked [is_match], the match word; every result lies within 60 s of the
    match and its [absolute_time] is the audio start plus its offset. *)
Theorem match_results_flag_once :
  forall m all_words,
  NoDup (map SearchAudio.word_id all_words) ->
  (exists w, In w all_words /\ SearchAudio.word_id w = SearchAudio.m_word_id m /\
             SearchAudio.time_offset w = SearchAudio.m_time_offset m) ->
  let rs := SearchAudio.match_results m all_words in
  map SearchAudio.r_word_id (filter SearchAudio.is_match rs) = [SearchAudio.m_word_id m] /\
  Forall (fun r => SearchAudio.m_time_offset m - 60000 <= SearchAudio.r_time_offset r
                   <= SearchAudio.m_time_offset m + 60000 /\
                   SearchAudio.absolute_time r
                   = SearchAudio.m_start_time m + SearchAudio.r_time_offset r) rs.
Proof.
  intros m l Hn (w & Hw & Hid & Ht) rs. subst rs. split.
  - rewrite SearchAudioFacts.flagged_ids. apply SearchAudioFacts.unique_id; [exact Hn|].
    exists w. split; [exact Hw|]. split; [exact Hid|]. rewrite Ht.
    apply andb_true_iff. split; apply Z.leb_le; lia.
  - unfold SearchAudio.match_results, SearchAudio.context_words.
    apply Forall_map, Forall_forall. intros v Hv. apply filter_In in Hv as [_ Hv].
    apply andb_true_iff in Hv as [H1 H2]. apply Z.leb_le in H1, H2. simpl. lia.
Qed.

(** ** Shape of the report lists *)

Module ReportShape.

Lemma fold_preserve : forall {S A} (f : S -> A -> S) (P : S -> Prop),
  (forall s a, P s -> P (f s a)) -> forall l s, P s -> P (fold_left f l s).
Proof. intros S A f P H l. induction l as [|a l IH]; intros s Hs; simpl; auto. Qed.

Lemma apply_hours_length : forall cr l, length (apply_hours cr l) = length l.
Proof.
  unfold apply_hours. induction cr as [|kv cr IH]; intros l; simpl; [reflexivity|].
  rewrite IH. unfold hour_bump. apply hour_add_length.
Qed.

Lemma apply_days_nodup : forall cr d,
  NoDup (map fst d) -> NoDup (map fst (apply_days cr d)).
Proof.
  unfold apply_days. induction cr as [|kv cr IH]; intros d Hd; simpl; [exact Hd|].
  apply IH. unfold dict_add. apply (dict_upd_nodup Z.eqb Z.eqb_spec), Hd.
Qed.

Lemma hourly_keys : forall l, length l = 24%nat ->
  map fst (hourly_items l) = map Z.of_nat (seq 0 24).
Proof.
  intros l Hl. unfold hourly_items.
  assert (G : forall {B C} (l1 : list B) (l2 : list C),
            (length l1 <= length l2)%nat -> map fst (combine l1 l2) = l1).
  { intros B C l1. induction l1 as [|x l1 IH]; intros [|y l2] H; simpl in *; try lia; auto.
    f_equal. apply IH. lia. }
  apply G. rewrite length_map, length_seq, Hl. lia.
Qed.

Lemma sorted_strict : forall (l : list (Z * Z)),
  Sorted GroupByTimeFacts.le_fst l -> NoDup (map fst l) -> Sorted Z.lt (map fst l).
Proof.
  intros l Hs Hn. induction Hs as [|p l Hs IH Hhd]; simpl; constructor.
  - inversion Hn; auto.
  - inversion Hhd as [|q l' Hpq]; subst; simpl; constructor.
    inversion Hn as [|? ? Hni _]; subst. unfold GroupByTimeFacts.le_fst in Hpq.
    assert (fst p <> fst q) by (intros E; apply Hni; rewrite E; left; reflexivity). lia.
Qed.

Lemma daily_sorted : forall d, NoDup (map fst d) ->
  Sorted Z.lt (map key (map mk_bucket_of (sorted_items d))).
Proof.
  intros d Hd. rewrite map_map. change (fun x => key (mk_bucket_of x)) with (@fst Z Z).
  apply sorted_strict; [apply GroupByTimeFacts.stable_sort_sorted_fst|].
  eapply Permutation_NoDup; [apply Permutation_map, stable_sort_perm | exact Hd].
Qed.

Lemma end_time_var_step : forall st seg,
  AppUsage.end_time_var (AppUsage.step st seg)
  = if (0 <? duration_seconds seg) && negb (hour_of (start_time seg) =? hour_of (end_time seg))
    then Some (end_time seg) else AppUsage.end_time_var st.
Proof.
  intros st seg. unfold AppUsage.step.
  destruct (Z.leb_spec (duration_seconds seg) 0) as [H|H];
    [rewrite (proj2 (Z.ltb_ge _ _) H) | rewrite (proj2 (Z.ltb_lt _ _) H)]; simpl;
    [reflexivity|].
  destruct (hour_of (start_time seg) =? hour_of (end_time seg)); reflexivity.
Qed.

End ReportShape.


(** X13: the daily lists of the active-hours and meetings reports are in
    strictly increasing date order: sorted, each date once. *)
Theorem daily_lists_strictly_sorted :
  forall segs evs start_time end_time,
  Sorted Z.lt (map key (ActiveHours.r_daily_activity (ActiveHours.report_of segs start_time end_time))) /\
  Sorted Z.lt (map key (Meetings.r_daily_meeting_hours (Meetings.report_of evs start_time end_time))).
Proof.
  intros segs evs a b. split.
  - unfold ActiveHours.report_of. cbn [ActiveHours.r_daily_activity].
    apply ReportShape.daily_sorted.
    apply (ReportShape.fold_preserve _ (fun st => NoDup (map fst (ActiveHours.daily_activity st))));
      [|constructor].
    intros st seg Hd. unfold ActiveHours.step.
    destruct (duration_seconds seg <=? 0); [exact Hd|].
    destruct (ActiveHours.current_period st) as [[p q]|];
      [destruct (start_time seg - q <=? gap_threshold * us_per_second)|];
      simpl; apply ReportShape.apply_days_nodup, Hd.
  - unfold Meetings.report_of. cbn [Meetings.r_daily_meeting_hours].
    apply ReportShape.daily_sorted.
    apply (ReportShape.fold_preserve _ (fun st => NoDup (map fst (Meetings.daily_meeting_hours st))));
      [|constructor].
    intros st ev Hd. unfold Meetings.step.
    destruct (ev_duration_seconds ev <=? 0); [exact Hd|].
    simpl. apply ReportShape.apply_days_nodup, Hd.
Qed.

(** X14: [get_app_usage]'s hour walk assigns the local [end_time], so the
    reported [time_range] ends at the end of the last positive segment
    whose start and end hours differ, not at the requested end. *)
Theorem app_usage_time_range_end :
  forall before seg after start end_time_arg now,
  0 < duration_seconds seg ->
  hour_of (start_time seg) <> hour_of (end_time seg) ->
  Forall (fun s => duration_seconds s <= 0 \/ hour_of (start_time s) = hour_of (end_time s)) after ->
  snd (AppUsage.time_range (AppUsage.report_of (before ++ seg :: after) start end_time_arg now))
  = end_time seg.
Proof.
  intros before seg after a et now Hpos Hh Hafter.
  unfold AppUsage.report_of. cbn [AppUsage.time_range snd].
  rewrite fold_left_app. simpl.
  set (st0 := AppUsage.step (fold_left AppUsage.step before (AppUsage.init et)) seg).
  assert (H0 : AppUsage.end_time_var st0 = Some (end_time seg)).
  { subst st0. rewrite ReportShape.end_time_var_step.
    rewrite (proj2 (Z.ltb_lt _ _) Hpos), (proj2 (Z.eqb_neq _ _) Hh). reflexivity. }
  assert (G : forall l st, Forall (fun s => duration_seconds s <= 0 \/
                                  hour_of (start_time s) = hour_of (end_time s)) l ->
            AppUsage.end_time_var (fold_left AppUsage.step l st) = AppUsage.end_time_var st).
  { induction l as [|s l IH]; intros st Hl; simpl; [reflexivity|].
    inversion Hl as [|? ? Hs Hl']; subst. rewrite IH by exact Hl'.
    rewrite ReportShape.end_time_var_step.
    destruct Hs as [Hs|Hs].
    - rewrite (proj2 (Z.ltb_ge _ _) Hs). reflexivity.
    - rewrite Hs, Z.eqb_refl, andb_false_r. reflexivity. }
  rewrite (G after st0 Hafter), H0. reflexivity.
Qed.

(** ** Concrete runs *)

(** Results as (absolute_time, frame_time) pairs, [None] for a missing key. *)
Definition timed_results : list (option Z * option Z) :=
  [(Some (100 * us_per_second), None); (Some 0, None); (Some (30 * us_per_second), None)].

Definition timed_groups : list (list (option Z * option Z)) :=
  [[(Some 0, None); (Some (30 * us_per_second), None)]; [(Some (100 * us_per_second), None)]].

Lemma group_results_by_time_no_field_witness :
  fst (@None Z, @None Z) = None /\ snd (@None Z, @None Z) = None /\
  GroupByTime.group_results_by_time fst snd [] 60 = GroupByTime.Ok [] /\
  GroupByTime.group_results_by_time fst snd ((None, None) :: timed_results) 60
    = GroupByTime.Raise GroupByTime.ValueError.
Proof.
  split; [reflexivity|]. split; [reflexivity|].
  exact (group_results_by_time_no_field fst snd (None, None) timed_results 60
           eq_refl eq_refl).
Defined.

Lemma group_results_by_time_key_error_witness :
  GroupByTime.select_field fst snd (Some 0, None) = Some GroupByTime.AbsoluteTime /\
  (GroupByTime.group_results_by_time fst snd [(Some 0, None); (None, Some 5)] 60
     = GroupByTime.Raise GroupByTime.KeyError <->
   Exists (fun x => GroupByTime.get fst snd GroupByTime.AbsoluteTime x = None)
     [(@None Z, Some 5)]).
Proof.
  split; [reflexivity|].
  exact (group_results_by_time_key_error fst snd GroupByTime.AbsoluteTime (Some 0, None)
           [(None, Some 5)] 60 eq_refl).
Defined.

Lemma group_results_by_time_partition_witness :
  GroupByTime.group_results_by_time fst snd timed_results 60 = GroupByTime.Ok timed_groups /\
  exists f, GroupByTime.select_field fst snd (Some (100 * us_per_second), None) = Some f /\
    Permutation timed_results (concat timed_groups) /\
    Sorted (GroupByTime.time_le (GroupByTime.get fst snd f)) (concat timed_groups) /\
    Forall (fun g => g <> []) timed_groups.
Proof.
  split; [vm_compute; reflexivity|].
  apply (group_results_by_time_partition fst snd (Some (100 * us_per_second), None)
           [(Some 0, None); (Some (30 * us_per_second), None)] 60 timed_groups).
  vm_compute. reflexivity.
Defined.

Lemma group_results_by_time_windows_witness :
  0 <= 60 /\
  GroupByTime.group_results_by_time fst snd timed_results 60 = GroupByTime.Ok timed_groups /\
  exists f, GroupByTime.select_field fst snd (Some (100 * us_per_second), None) = Some f /\
    Forall (GroupByTime.window_group (GroupByTime.get fst snd f) (60 * us_per_second))
      timed_groups /\
    Sorted (GroupByTime.apart (GroupByTime.get fst snd f) (60 * us_per_second)) timed_groups.
Proof.
  split; [lia|]. split; [vm_compute; reflexivity|].
  apply (group_results_by_time_windows fst snd (Some (100 * us_per_second), None)
           [(Some 0, None); (Some (30 * us_per_second), None)] 60 timed_groups).
  - lia.
  - vm_compute. reflexivity.
Defined.

(** Collectors that report the window they were given. *)
Definition window_probe (now h d w m : Z) (r : bool) : Z * Z * Z * Z * bool := (h, d, w, m, r).


Lemma row_selected_iff_overlap_witness :
  0 <= 10 /\ 5 <= 20 /\
  (RangeQuery.row_selected 0 10 5 20 = true <-> 5 <= 10 /\ 0 <= 20).
Proof.
  split; [lia|]. split; [lia|].
  apply (row_selected_iff_overlap 0 10 5 20); lia.
Defined.

Definition context_example : list SearchAudio.transcript_word :=
  [SearchAudio.mk_transcript_word 1 "hello" 0 400;
   SearchAudio.mk_transcript_word 2 "rewind" 50000 500;
   SearchAudio.mk_transcript_word 3 "later" 200000 300].

Definition match_example : SearchAudio.audio_match :=
  SearchAudio.mk_audio_match 9 1700000000000 300000 4 2 "rewind" 50000 500.

Lemma match_results_flag_once_witness :
  NoDup (map SearchAudio.word_id context_example) /\
  (exists w, In w context_example /\ SearchAudio.word_id w = SearchAudio.m_word_id match_example /\
             SearchAudio.time_offset w = SearchAudio.m_time_offset match_example) /\
  let rs := SearchAudio.match_results match_example context_example in
  map SearchAudio.r_word_id (filter SearchAudio.is_match rs) = [SearchAudio.m_word_id match_example] /\
  Forall (fun r => SearchAudio.m_time_offset match_example - 60000 <= SearchAudio.r_time_offset r
                   <= SearchAudio.m_time_offset match_example + 60000 /\
                   SearchAudio.absolute_time r
                   = SearchAudio.m_start_time match_example + SearchAudio.r_time_offset r) rs.
Proof.
  assert (Hn : NoDup (map SearchAudio.word_id context_example)).
  { simpl. repeat constructor; simpl; lia. }
  assert (Hw : exists w, In w context_example /\
                 SearchAudio.word_id w = SearchAudio.m_word_id match_example /\
                 SearchAudio.time_offset w = SearchAudio.m_time_offset match_example).
  { exists (SearchAudio.mk_transcript_word 2 "rewind" 50000 500). simpl. auto. }
  split; [exact Hn|]. split; [exact Hw|].
  exact (match_results_flag_once match_example context_example Hn Hw).
Defined.

(** 10:15 to 11:45 on 1970-01-01, with [end_time] 12:00 requested. *)
Definition hour_crossing_segment : segment :=
  mk_segment (10 * us_per_hour + 900 * us_per_second) (11 * us_per_hour + 2700 * us_per_second)
             (Some "com.apple.Terminal") (Some "zsh") None (5400 * us_per_second).

Lemma app_usage_time_range_end_witness :
  0 < duration_seconds hour_crossing_segment /\
  hour_of (start_time hour_crossing_segment) <> hour_of (end_time hour_crossing_segment) /\
  snd (AppUsage.time_range (AppUsage.report_of [hour_crossing_segment] (10 * us_per_hour)
                              (Some (12 * us_per_hour)) 0))
  = end_time hour_crossing_segment.
Proof.
  assert (Hp : 0 < duration_seconds hour_crossing_segment) by (vm_compute; reflexivity).
  assert (Hh : hour_of (start_time hour_crossing_segment)
               <> hour_of (end_time hour_crossing_segment)) by (vm_compute; discriminate).
  split; [exact Hp|]. split; [exact Hh|].
  exact (app_usage_time_range_end [] hour_crossing_segment [] (10 * us_per_hour)
           (Some (12 * us_per_hour)) 0 Hp Hh (Forall_nil _)).
Defined.
